(** * About-Me generator: prompt composer, completion client and session
    handlers of [code.py], embedded shallowly.

    Conventions of the embedding.
    - A Python [str] is a list of Unicode code points ([list N]); slicing,
      [len] and [strip] therefore count characters, as Python does.
    - A Python [dict] with string keys is a [gmap]; [d.get(k, v)] is
      [default v (d !! k)] and [==] on dicts is equality of the maps.
    - A Python [float] is a binary64 value ([PrimFloat.float]), with the
      round-to-nearest-even arithmetic of the hardware.
    - Side effects ([st.error], [requests.post], [st.rerun]) are recorded
      in a trace of events; an exception is a value of type [exn]. *)

From Stdlib Require Import ZArith Ascii String Floats.
From stdpp Require Import gmap strings list pretty.

Set Warnings "-register-all,-inexact-float".
Local Open Scope Z_scope.

(** ** Strings *)

Abbreviation str := (list N).

(** An ASCII literal of the source, as a Python string. *)
Definition py (s : string) : str :=
  N_of_ascii <$> list_ascii_of_string s.

(** [str(i)] for an [int]. *)
Definition str_of_int (i : Z) : str := py (pretty i).

(** [str.isspace] on one character: the code points CPython's
    [_PyUnicode_IsWhitespace] accepts. *)
Definition isspace (c : N) : bool :=
  ((0x09 <=? c) && (c <=? 0x0D) || (0x1C <=? c) && (c <=? 0x20)
   || (c =? 0x85) || (c =? 0xA0) || (c =? 0x1680)
   || (0x2000 <=? c) && (c <=? 0x200A)
   || (c =? 0x2028) || (c =? 0x2029) || (c =? 0x202F) || (c =? 0x205F)
   || (c =? 0x3000))%N.

Fixpoint lstrip (s : str) : str :=
  match s with
  | c :: s' => if isspace c then lstrip s' else s
  | [] => []
  end.

Definition rstrip (s : str) : str := reverse (lstrip (reverse s)).

(** [s.strip()] *)
Definition strip (s : str) : str := rstrip (lstrip s).

(** Truth value of a string: non-empty. *)
Definition truthy (s : str) : bool :=
  match s with [] => false | _ => true end.

(** [sub in s] *)
Definition contains (sub s : str) : Prop :=
  ∃ pre post, s = pre ++ sub ++ post.

(** ** Exceptions

    Only subclasses of [Exception] are modelled.  [ConnectTimeout] derives
    from both [ConnectionError] and [Timeout] in [requests.exceptions]. *)

Inductive exn_class :=
  | ConnectTimeout | ReadTimeout | Timeout
  | ConnectionError | SSLError | ProxyError
  | JSONDecodeError
  | IndexError | KeyError | AttributeError | TypeError
  | OtherException.

Record exn := Exn { exn_cls : exn_class; exn_str : str }.

Definition isinstance_Timeout (e : exn) : bool :=
  match exn_cls e with
  | ConnectTimeout | ReadTimeout | Timeout => true
  | _ => false
  end.

Definition isinstance_ConnectionError (e : exn) : bool :=
  match exn_cls e with
  | ConnectTimeout | ConnectionError | SSLError | ProxyError => true
  | _ => false
  end.

Inductive outcome (A : Type) :=
  | Ret (a : A)
  | Raise (e : exn).
Arguments Ret {A} a.
Arguments Raise {A} e.

(** ** JSON values, as [response.json()] returns them *)

Inductive json :=
  | JNone
  | JBool (b : bool)
  | JInt (i : Z)
  | JFloat (f : float)
  | JStr (s : str)
  | JList (l : list json)
  | JDict (d : gmap str json).

Definition type_name (v : json) : str :=
  match v with
  | JNone => py "NoneType"
  | JBool _ => py "bool"
  | JInt _ => py "int"
  | JFloat _ => py "float"
  | JStr _ => py "str"
  | JList _ => py "list"
  | JDict _ => py "dict"
  end.

Definition squote : str := py "'".

Definition no_attribute (v : json) (attr : string) : exn :=
  Exn AttributeError
    (squote ++ type_name v ++ py "' object has no attribute '" ++ py attr ++ squote).

(** [v.get(k, dflt)] *)
Definition json_get (v : json) (k : string) (dflt : json) : outcome json :=
  match v with
  | JDict d => Ret (default dflt (d !! py k))
  | _ => Raise (no_attribute v "get")
  end.

(** [v[0]] *)
Definition json_item0 (v : json) : outcome json :=
  match v with
  | JList (x :: _) => Ret x
  | JList [] => Raise (Exn IndexError (py "list index out of range"))
  | JStr (c :: _) => Ret (JStr [c])
  | JStr [] => Raise (Exn IndexError (py "string index out of range"))
  | JDict _ => Raise (Exn KeyError (py "0"))
  | _ => Raise (Exn TypeError
                  (squote ++ type_name v ++ py "' object is not subscriptable"))
  end.

(** [v.strip()] *)
Definition json_strip (v : json) : outcome str :=
  match v with
  | JStr s => Ret (strip s)
  | _ => Raise (no_attribute v "strip")
  end.

(** ** The outside world and the trace of effects *)

Record message := Message { role : str; content : str }.

(** The [json=] body of a request; the probe of [check_groq_connection]
    sets neither [temperature] nor [top_p]. *)
Record payload := Payload {
  model : str;
  messages : list message;
  max_tokens : Z;
  temperature : option float;
  top_p : option float
}.

Record request := Request {
  url : str;
  authorization : str;   (* headers["Authorization"] *)
  content_type : str;    (* headers["Content-Type"] *)
  body : payload;
  timeout : Z
}.

(** What the client reads of a [requests.Response]: [status_code], [text]
    and the result of [json()], which raises on a body that is not JSON. *)
Record response := Response {
  status_code : Z;
  text : str;
  json_body : outcome json
}.

(** The ambient values a run depends on: the key read from the environment
    at start-up, the network, the next draw of [random.random()] and the
    formatted reading of the clock. *)
Record world := World {
  GROQ_API_KEY : str;
  requests_post : request -> outcome response;
  random_random : float;
  datetime_now : str
}.

Inductive event :=
  | StError (msg : str)       (* st.error(msg) *)
  | StWarning (msg : str)     (* st.warning(msg) *)
  | Post (req : request)      (* requests.post(...) *)
  | Rerun.                    (* st.rerun() *)

(** A computation returns or raises, and leaves a trace. *)
Definition M (A : Type) : Type := outcome A * list event.

Definition ret {A} (a : A) : M A := (Ret a, []).

Definition bind {A B} (m : M A) (f : A -> M B) : M B :=
  match m with
  | (Ret a, t) => let '(r, t') := f a in (r, t ++ t')
  | (Raise e, t) => (Raise e, t)
  end.

Definition lift {A} (o : outcome A) : M A := (o, []).

Definition emit (ev : event) : M unit := (Ret tt, [ev]).

Definition st_error (msg : str) : M unit := emit (StError msg).

(** [try: m except Exception as e: h e] *)
Definition try_except {A} (m : M A) (h : exn -> M A) : M A :=
  match m with
  | (Raise e, t) => let '(r, t') := h e in (r, t ++ t')
  | ok => ok
  end.

Declare Scope py_scope.
Delimit Scope py_scope with py.
Notation "x <- m ;; k" := (bind m (fun x => k))
  (at level 100, m at next level, right associativity) : py_scope.
Notation "m ;;; k" := (bind m (fun _ => k))
  (at level 100, right associativity) : py_scope.
Local Open Scope py_scope.

Definition post (w : world) (req : request) : M response :=
  emit (Post req) ;;; lift (requests_post w req).

Definition is_post (ev : event) : bool :=
  match ev with Post _ => true | _ => false end.

(** Number of outbound network calls in a trace. *)
Definition network_calls (t : list event) : nat := length (filter is_post t).

(** ** Configuration *)

Definition GROQ_API_URL : str := py "https://api.groq.com/openai/v1/chat/completions".
Definition GROQ_MODEL : str := py "llama-3.3-70b-versatile".
Definition MAX_TOKENS : Z := 300.

Definition bearer (w : world) : str := py "Bearer " ++ GROQ_API_KEY w.

(** ** Completion client *)

Definition check_groq_connection (w : world) : M (bool * str) :=
  if negb (truthy (GROQ_API_KEY w)) then
    ret (false, py "API key not configured. Please set GROQ_API_KEY in your environment variables.")
  else
    try_except
      (let test_payload :=
         {| model := GROQ_MODEL;
            messages := [Message (py "user") (py "Hello")];
            max_tokens := 5;
            temperature := None;
            top_p := None |} in
       response <- post w (Request GROQ_API_URL (bearer w) (py "application/json")
                             test_payload 10) ;;
       if status_code response =? 200 then
         ret (true, py "Connected")
       else
         ret (false, py "Status: " ++ str_of_int (status_code response)
                       ++ py " - " ++ take 100 (text response)))
      (fun e =>
         if isinstance_Timeout e then ret (false, py "Connection timeout")
         else if isinstance_ConnectionError e then ret (false, py "Connection error")
         else ret (false, py "Error: " ++ exn_str e)).

Definition msg_key_missing : str := 0x274C%N :: py " GROQ_API_KEY not configured".
Definition msg_timed_out : str := 0x23F1%N :: 0xFE0F%N :: py " Generation timed out".
Definition msg_cannot_connect : str := 0x1F50C%N :: py " Cannot connect to Groq API".
Definition msg_error_generating (e : exn) : str :=
  0x274C%N :: py " Error generating content: " ++ exn_str e.

Definition generate_with_groq (w : world) (prompt system_prompt : str)
    (temperature : float) : M (option str) :=
  if negb (truthy (GROQ_API_KEY w)) then
    st_error msg_key_missing ;;;
    ret None
  else
    try_except
      (let payload :=
         {| model := GROQ_MODEL;
            messages := [Message (py "system") system_prompt;
                         Message (py "user") prompt];
            max_tokens := MAX_TOKENS;
            temperature := Some temperature;
            top_p := Some 0.95%float |} in
       response <- post w (Request GROQ_API_URL (bearer w) (py "application/json")
                             payload 30) ;;
       if status_code response =? 200 then
         result <- lift (json_body response) ;;
         choices <- lift (json_get result "choices" (JList [JDict ∅])) ;;
         choice <- lift (json_item0 choices) ;;
         message <- lift (json_get choice "message" (JDict ∅)) ;;
         content <- lift (json_get message "content" (JStr [])) ;;
         stripped <- lift (json_strip content) ;;
         ret (Some stripped)
       else
         st_error (py "Groq API returned status code: "
                   ++ str_of_int (status_code response)) ;;;
         st_error (py "Response: " ++ text response) ;;;
         ret None)
      (fun e =>
         if isinstance_Timeout e then
           st_error msg_timed_out ;;; ret None
         else if isinstance_ConnectionError e then
           st_error msg_cannot_connect ;;; ret None
         else
           st_error (msg_error_generating e) ;;; ret None).

(** ** Prompt composer *)

(** [data.get(k, dflt)] on the profile. *)
Definition get (data : gmap str str) (k : string) (dflt : str) : str :=
  default dflt (data !! py k).

Definition aspiration (data : gmap str str) : str := get data "aspiration" [].

Definition target_market (data : gmap str str) : str :=
  if bool_decide (aspiration data ∈ [py "Interested in studying abroad";
                                     py "Work as a freelancer"])
  then py "International"
  else py "Pakistan".

Definition variation_styles : list str := [
  py "Lead with achievements and quantifiable results. Start with your strongest accomplishment.";
  py "Open with your passion and what drives you. Emphasize commitment and enthusiasm.";
  py "Begin by highlighting your unique competitive advantages and specialized skills.";
  py "Start with your adaptability and how you embrace new challenges and learning.";
  py "Open with a problem you solved or impact you created. Focus on outcomes.";
  py "Lead with your professional identity and what makes you stand out in your field.";
  py "Begin with your career goals and how your background prepares you for them.";
  py "Start by describing your professional journey and key milestones.";
  py "Open with your technical expertise and how you apply it effectively.";
  py "Lead with your collaborative strengths and team contributions."
].

(** [variation_styles[variation_number % len(variation_styles)]] *)
Definition variation_style (variation_number : Z) : outcome str :=
  match variation_styles !!
          Z.to_nat (variation_number `mod` Z.of_nat (length variation_styles)) with
  | Some s => Ret s
  | None => Raise (Exn IndexError (py "list index out of range"))
  end.

(** The guidance of the [if]/[elif] chain, then the style appended. *)
Definition aspiration_guidance (data : gmap str str) (style : str) : str :=
  let a := aspiration data in
  (
   if bool_decide (a = py "Interested in studying abroad") then
     py "Emphasize academic achievements, research interests, international aspirations, adaptability, and desire for global education. Highlight qualifications that make them a strong candidate for international universities."
   else if bool_decide (a = py "Want to serve Family Business") then
     py "Focus on family business values, loyalty, entrepreneurial mindset, relevant skills for business growth, and commitment to continuing family legacy. Show blend of tradition and innovation."
   else if bool_decide (a = py "New Start-up (Business)") then
     py "Highlight entrepreneurial spirit, innovation, problem-solving skills, leadership qualities, risk-taking abilities, and vision for creating new ventures. Show passion for building something new."
   else if bool_decide (a = py "Work as a freelancer") then
     py "Emphasize self-motivation, diverse skill set, flexibility, client management abilities, independent work style, and track record of delivering projects. Show versatility and reliability."
   else if bool_decide (a = py "Interested in Job") then
     py "Focus on professional qualifications, team collaboration, career growth mindset, organizational skills, and readiness to contribute to company success. Show you're a valuable employee."
   else if bool_decide (a = py "Want to continue studies in Pakistan") then
     py "Highlight academic dedication, research interests, commitment to local education system, desire for advanced knowledge, and contributions to Pakistan's academic community."
   else [])
  ++ py " " ++ style.

Definition dquote : str := [34%N].

Definition system_prompt (data : gmap str str) (variation_number : Z) : str :=
  py "You are an expert CV writer for "
  ++ target_market data
  ++ py " job markets. 
Always write exactly 70 words. Write in first person perspective.
Create a unique and compelling narrative each time, varying sentence structure and emphasis.
Variation #"
  ++ str_of_int (variation_number + 1)
  ++ py " - Make this version distinctly different from previous versions.".

Definition prompt (data : gmap str str) (variation_number : Z) (guidance : str) : str :=
  py "
Generate a professional CV "
  ++ dquote
  ++ py "About Me"
  ++ dquote
  ++ py " section for someone with the following profile:

TARGET MARKET: "
  ++ target_market data
  ++ py "
CAREER ASPIRATION: "
  ++ aspiration data
  ++ py "
"
  ++ guidance
  ++ py "

EDUCATION:
University: "
  ++ get data "university" (py "N/A")
  ++ py "
Major Subject: "
  ++ get data "major_subject" (py "N/A")
  ++ py "
Status: "
  ++ get data "degree_status" []
  ++ py "
Pass out: "
  ++ get data "passout_session" (py "N/A")
  ++ py "
Final Year Project: "
  ++ get data "final_year_project" (py "N/A")
  ++ py "

EXPERIENCE:
Organization: "
  ++ get data "organization" (py "N/A")
  ++ py "
Designation: "
  ++ get data "designation" []
  ++ py "
Years: "
  ++ get data "experience_years" []
  ++ py "
Status: "
  ++ get data "experience_status" []
  ++ py "
Industry: "
  ++ get data "industry" []
  ++ py "
Work Detail: "
  ++ get data "work_detail" (py "N/A")
  ++ py "

SKILLS & INTERESTS:
Technical Skills: "
  ++ get data "technical_skills" []
  ++ py "
IT Skills: "
  ++ get data "it_skills" (py "N/A")
  ++ py "
Interests: "
  ++ get data "interests" (py "N/A")
  ++ py "
Certifications: "
  ++ get data "certifications" (py "N/A")
  ++ py "
Awards: "
  ++ get data "medal_holder" (py "N/A")
  ++ py "

ACHIEVEMENTS:
"
  ++ get data "achievements" []
  ++ py "

HONOURS:
"
  ++ get data "honours" (py "N/A")
  ++ py "

REFERENCES:
Name: "
  ++ get data "ref_name" (py "N/A")
  ++ py "
Designation: "
  ++ get data "ref_designation" (py "N/A")
  ++ py "
Organization: "
  ++ get data "ref_organization" (py "N/A")
  ++ py "

CRITICAL REQUIREMENTS:
1. Write exactly 70 words
2. Write in first person perspective
3. Tailor the content specifically for "
  ++ target_market data
  ++ py " market
4. Make the aspiration ("
  ++ aspiration data
  ++ py ") clear and central to the narrative
5. Use appropriate tone for "
  ++ target_market data
  ++ py " market (Pakistan: formal and respectful, International: direct and results-focused)
6. Create a UNIQUE version - vary the opening, structure, and emphasis from typical CV summaries

VARIATION INSTRUCTION: This is variation #"
  ++ str_of_int (variation_number + 1)
  ++ py ". Make it distinctly different by using alternative phrasing and different angle of emphasis.
".

(** The dictionary [generate_cv_sections] returns. *)
Record section := MkSection {
  sec_text : str;
  sec_timestamp : str;
  sec_designation : str;
  sec_market : str;
  sec_aspiration : str;
  sec_university : str;
  sec_variation : Z
}.

(** [0.85 + (random.random() * 0.15)] *)
Definition sample_temperature (r : float) : float := (0.85 + (r * 0.15))%float.

Definition generate_cv_sections (w : world) (data : gmap str str)
    (variation_number : Z) : M (option section) :=
  style <- lift (variation_style variation_number) ;;
  let guidance := aspiration_guidance data style in
  let temperature := sample_temperature (random_random w) in
  text <- generate_with_groq w (prompt data variation_number guidance)
            (system_prompt data variation_number) temperature ;;
  match text with
  | Some t =>
      if truthy t then
        ret (Some {| sec_text := t;
                     sec_timestamp := datetime_now w;
                     sec_designation := get data "designation" [];
                     sec_market := target_market data;
                     sec_aspiration := aspiration data;
                     sec_university := get data "university" [];
                     sec_variation := variation_number + 1 |})
      else ret None
  | None => ret None
  end.

(** ** Session state and the two handlers of the page *)

(** The values of the form's widgets at a submit, named as the variables
    that hold them. *)
Module Widgets.
Record t := Make {
  university : str;
  major_subject : str;
  degree_status : str;
  passout_session : str;
  final_year_project : str;
  organization : str;
  designation : str;
  experience_years : str;
  experience_status : str;
  industry : str;
  work_detail : str;
  technical_skills : str;
  it_skills : str;
  interests : str;
  certifications : str;
  medal_holder : str;
  achievements : str;
  honours : str;
  ref_name : str;
  ref_designation : str;
  ref_organization : str;
  aspiration : str
}.
End Widgets.

(** The [form_data] dictionary literal of the submit handler. *)
Definition make_form_data (v : Widgets.t) : gmap str str :=
  list_to_map [
    (py "university", Widgets.university v);
    (py "major_subject", Widgets.major_subject v);
    (py "degree_status", Widgets.degree_status v);
    (py "passout_session", Widgets.passout_session v);
    (py "final_year_project", Widgets.final_year_project v);
    (py "organization", Widgets.organization v);
    (py "designation", Widgets.designation v);
    (py "experience_years", Widgets.experience_years v);
    (py "experience_status", Widgets.experience_status v);
    (py "industry", Widgets.industry v);
    (py "work_detail", Widgets.work_detail v);
    (py "technical_skills", Widgets.technical_skills v);
    (py "it_skills", Widgets.it_skills v);
    (py "interests", Widgets.interests v);
    (py "certifications", Widgets.certifications v);
    (py "medal_holder", Widgets.medal_holder v);
    (py "achievements", Widgets.achievements v);
    (py "honours", Widgets.honours v);
    (py "ref_name", Widgets.ref_name v);
    (py "ref_designation", Widgets.ref_designation v);
    (py "ref_organization", Widgets.ref_organization v);
    (py "aspiration", Widgets.aspiration v)
  ].

(** The three keys of [st.session_state] the page initialises. *)
Record session := Session {
  generated_section : option section;
  form_data : gmap str str;
  variation_count : Z
}.

Definition initial_session : session := Session None ∅ 0.

Definition msg_required : str := py "Please fill in all required fields (marked with *)".

(** The body of [if submitted:].  The session is updated in place, so the
    state reached is returned also when the body raises. *)
Definition on_submit (w : world) (v : Widgets.t) (s : session) : session * M unit :=
  if negb (truthy (Widgets.achievements v)) then
    (s, st_error msg_required)
  else
    let data := make_form_data v in
    let form_changed :=
      negb (bool_decide (form_data s !! py "aspiration" = Some (Widgets.aspiration v)))
      || negb (bool_decide (form_data s = data)) in
    let count := if form_changed then 0 else variation_count s in
    let s1 := Session (generated_section s) data count in
    match generate_cv_sections w data count with
    | (Ret (Some sec), t) => (Session (Some sec) data (count + 1), (Ret tt, t ++ [Rerun]))
    | (Ret None, t) => (s1, (Ret tt, t))
    | (Raise e, t) => (s1, (Raise e, t))
    end.

Definition msg_submit_first : str := py "Please fill and submit the form first".

(** The body of the Regenerate button. *)
Definition on_regenerate (w : world) (s : session) : session * M unit :=
  if bool_decide (form_data s ≠ ∅) then
    match generate_cv_sections w (form_data s) (variation_count s) with
    | (Ret (Some sec), t) =>
        (Session (Some sec) (form_data s) (variation_count s + 1), (Ret tt, t ++ [Rerun]))
    | (Ret None, t) => (s, (Ret tt, t))
    | (Raise e, t) => (s, (Raise e, t))
    end
  else
    (s, emit (StWarning msg_submit_first)).

(** * Definitions used to state the properties

    Views of the code (the request it builds, the call it makes), the
    failure classes of the specification, and the inputs the examples
    run on. *)

(** The four values of the form's list that are not international. *)
Definition remaining_aspirations : list str := [
  py "Interested in Job";
  py "Want to serve Family Business";
  py "New Start-up (Business)";
  py "Want to continue studies in Pakistan"
].

(** A profile that asks for a job. *)
Definition job_profile : gmap str str :=
  {[ py "aspiration" := py "Interested in Job"; py "achievements" := py "Won X award" ]}.

(** The request [generate_with_groq] builds. *)
Definition groq_request (w : world) (prompt system_prompt : str) (temp : float) : request :=
  Request GROQ_API_URL (bearer w) (py "application/json")
    {| model := GROQ_MODEL;
       messages := [Message (py "system") system_prompt; Message (py "user") prompt];
       max_tokens := MAX_TOKENS;
       temperature := Some temp;
       top_p := Some 0.95%float |}
    30.

(** The failure classes of the specification. *)
Inductive failure :=
  | ConfigMissing
  | FTimeout
  | FConnectionError
  | ServerError (status : Z) (body : str)
  | UnknownError (e : exn).

(** What each class shows to the user in the generation path. *)
Definition surfaced (f : failure) : list event :=
  match f with
  | ConfigMissing => [StError msg_key_missing]
  | FTimeout => [StError msg_timed_out]
  | FConnectionError => [StError msg_cannot_connect]
  | ServerError status body =>
      [StError (py "Groq API returned status code: " ++ str_of_int status);
       StError (py "Response: " ++ body)]
  | UnknownError e => [StError (msg_error_generating e)]
  end.

(** The priority order of the specification: timeout, then connection
    failure, then anything else. *)
Definition classify_exn (e : exn) : failure :=
  if isinstance_Timeout e then FTimeout
  else if isinstance_ConnectionError e then FConnectionError
  else UnknownError e.

(** Sequencing of two steps that may raise. *)
Definition bind_outcome {A B} (o : outcome A) (f : A -> outcome B) : outcome B :=
  match o with Ret a => f a | Raise e => Raise e end.

(** [result.get("choices", [{}])[0].get("message", {}).get("content", "").strip()] *)
Definition first_choice_content (result : json) : outcome str :=
  bind_outcome (json_get result "choices" (JList [JDict ∅])) (fun choices =>
  bind_outcome (json_item0 choices) (fun choice =>
  bind_outcome (json_get choice "message" (JDict ∅)) (fun message =>
  bind_outcome (json_get message "content" (JStr [])) json_strip))).

(** The single attempt, classified: a text, or exactly one failure class. *)
Definition attempt (o : outcome response) : failure + str :=
  match o with
  | Raise e => inl (classify_exn e)
  | Ret resp =>
      if status_code resp =? 200 then
        match bind_outcome (json_body resp) first_choice_content with
        | Ret s => inr s
        | Raise e => inl (classify_exn e)
        end
      else inl (ServerError (status_code resp) (text resp))
  end.

(** Two failures are of the same class when they differ at most in what
    the class carries. *)
Definition same_class (f f' : failure) : Prop :=
  match f, f' with
  | ConfigMissing, ConfigMissing
  | FTimeout, FTimeout
  | FConnectionError, FConnectionError
  | ServerError _ _, ServerError _ _
  | UnknownError _, UnknownError _ => True
  | _, _ => False
  end.

(** A server that is never reached in time. *)
Definition unreachable_world : world :=
  World (py "gsk_test") (fun _ => Raise (Exn ConnectTimeout (py "timed out")))
        0.5%float (py "2024-01-01 00:00:00").

(** A response body of 101 characters. *)
Definition long_body : str := replicate 101 120%N.

(** A server that answers 500 with that body. *)
Definition failing_world : world :=
  World (py "gsk_test")
        (fun _ => Ret (Response 500 long_body
                         (Raise (Exn JSONDecodeError (py "Expecting value")))))
        0.5%float (py "2024-01-01 00:00:00").

(** A server that answers 200 with a given JSON value. *)
Definition answering_world (v : json) : world :=
  World (py "gsk_test") (fun _ => Ret (Response 200 [] (Ret v)))
        0.5%float (py "2024-01-01 00:00:00").

(** A chat completion with one choice. *)
Definition completion (content : str) : json :=
  JDict {[ py "choices" :=
             JList [JDict {[ py "message" :=
                               JDict {[ py "content" := JStr content ]} ]}] ]}.

(** The call to the client that [generate_cv_sections] makes once the
    style [s] is selected. *)
Definition client_call (w : world) (data : gmap str str) (n : Z) (s : str)
    : M (option str) :=
  generate_with_groq w (prompt data n (aspiration_guidance data s))
    (system_prompt data n) (sample_temperature (random_random w)).

(** The dictionary returned for the text [t]. *)
Definition section_of (w : world) (data : gmap str str) (n : Z) (t : str) : section :=
  {| sec_text := t;
     sec_timestamp := datetime_now w;
     sec_designation := get data "designation" [];
     sec_market := target_market data;
     sec_aspiration := aspiration data;
     sec_university := get data "university" [];
     sec_variation := n + 1 |}.

(** The profile of the end-to-end example. *)
Definition startup_profile : gmap str str :=
  {[ py "aspiration" := py "New Start-up (Business)";
     py "achievements" := py "Won X award" ]}.

(** The text the mocked completion service returns in that example. *)
Definition entrepreneur_text : str := py "I am an aspiring entrepreneur...".

(** A filled form, up to the achievements field. *)
Definition sample_widgets (achievements : str) : Widgets.t :=
  {| Widgets.university := py "LUMS";
     Widgets.major_subject := py "Computer Science";
     Widgets.degree_status := py "Completed";
     Widgets.passout_session := py "2023";
     Widgets.final_year_project := [];
     Widgets.organization := py "TechSol";
     Widgets.designation := py "Software Engineer";
     Widgets.experience_years := py "2 years";
     Widgets.experience_status := py "Current";
     Widgets.industry := py "Information Technology";
     Widgets.work_detail := [];
     Widgets.technical_skills := py "Python, JavaScript, SQL";
     Widgets.it_skills := [];
     Widgets.interests := [];
     Widgets.certifications := [];
     Widgets.medal_holder := [];
     Widgets.achievements := achievements;
     Widgets.honours := [];
     Widgets.ref_name := [];
     Widgets.ref_designation := [];
     Widgets.ref_organization := [];
     Widgets.aspiration := py "New Start-up (Business)" |}.

(** The counter a submit generates with: kept when the submitted dictionary
    equals the stored one, zero otherwise. *)
Definition counter_at_submit (v : Widgets.t) (s : session) : Z :=
  if bool_decide (form_data s = make_form_data v) then variation_count s else 0.

(** The second half of [binary_round_aux]: renormalise after rounding. *)
Definition round_finish (m e : Z) : spec_float :=
  let '(mrs, e') := shr_fexp prec emax m e loc_Exact in
  match shr_m mrs with
  | Z0 => S754_zero false
  | Zpos m' =>
      if e' <=? emax - prec then S754_finite false m' e' else S754_infinity false
  | Zneg _ => S754_nan
  end.

(** The mantissas of the literals: [0.15] is [m15 * 2^-55] and [0.85]
    is [m85 * 2^-53]. *)
Definition m15 : positive := 5404319552844595.
Definition m85 : positive := 7656119366529843.

(** A non-negative value of at most [0.15]: what [r * 0.15] turns out to
    be for a draw [r] below one. *)
Definition at_most_015 (q : spec_float) : Prop :=
  match q with
  | S754_zero _ => True
  | S754_finite false mq eq =>
      -1074 ≤ eq ≤ -55 ∧ Zpos mq < 2 ^ 53 ∧ (eq = -55 → Zpos mq ≤ Zpos m15)
  | _ => False
  end.

(** The largest value [random.random()] returns: [1 - 2^-53]. *)
Definition largest_draw : float := 0x1.fffffffffffffp-1%float.

(** The temperatures of the requests in a trace. *)
Definition posted_temperatures (t : list event) : list (option float) :=
  flat_map (λ ev, match ev with
                  | Post req => [temperature (body req)]
                  | _ => []
                  end) t.

(** A world whose next draw is the largest one. *)
Definition largest_draw_world : world :=
  World (py "gsk_test") (fun _ => Ret (Response 200 [] (Ret (completion entrepreneur_text))))
        largest_draw (py "2024-01-01 00:00:00").

(** * The rest of the page *)

(** ** Sample data for the form

    [random.choice] and [random.randint] draw from a generator; all that
    is used of it is [_randbelow], which returns an integer below its
    argument together with the next state of the generator. *)

Definition sample_universities : list str :=
  [py "LUMS"; py "NUST"; py "FAST"; py "UET"; py "COMSATS"].

Definition sample_majors : list str :=
  [py "Computer Science"; py "Software Engineering"; py "Data Analytics"; py "Marketing"; py "Finance"].

Definition sample_orgs : list str :=
  [py "TechSol"; py "DataCorp"; py "InnovateTech"; py "SoftSolutions"; py "Digital Dynamics"].

Definition sample_designations : list str :=
  [py "Software Engineer"; py "Data Analyst"; py "Product Manager"; py "Web Developer"; py "Business Analyst"].

Definition sample_industries : list str :=
  [py "Information Technology"; py "Software Development"; py "E-commerce"; py "Banking"; py "Telecommunications"].

Definition sample_skills : list str :=
  [py "Python, JavaScript, SQL"; py "Java, C++, React"; py "Data Analysis, Machine Learning"; py "Marketing, SEO, Content"; py "Finance, Excel, PowerBI"].

Definition sample_achievements : list str := [
  py "Developed a full-stack web application with 1000+ active users";
  py "Led a team of 5 developers to deliver project 2 weeks ahead of schedule";
  py "Increased company revenue by 15% through data-driven marketing strategies";
  py "Published research paper on AI applications in healthcare";
  py "Won best performer award for 3 consecutive quarters"
].

Declare Scope rand_scope.
Delimit Scope rand_scope with rand.

Section Random.
Variable rng : Type.
Variable randbelow : nat → rng → nat * rng.

(** A computation that draws: it returns or raises, and leaves the
    generator in a new state. *)
Definition R (A : Type) : Type := rng → outcome A * rng.

Definition rret {A} (a : A) : R A := λ g, (Ret a, g).

Definition rbind {A B} (m : R A) (f : A → R B) : R B := λ g,
  match m g with
  | (Ret a, g') => f a g'
  | (Raise e, g') => (Raise e, g')
  end.

Notation "x <- m ;; k" := (rbind m (fun x => k))
  (at level 100, m at next level, right associativity) : rand_scope.
Local Open Scope rand_scope.

(** [random.choice(seq)] *)
Definition random_choice {A} (seq : list A) : R A := λ g,
  match seq with
  | [] => (Raise (Exn IndexError (py "Cannot choose from an empty sequence")), g)
  | _ =>
      let '(i, g') := randbelow (length seq) g in
      match seq !! i with
      | Some x => (Ret x, g')
      | None => (Raise (Exn IndexError (py "list index out of range")), g')
      end
  end.

(** [random.randint(a, b)], that is [randrange(a, b + 1)]; the empty range
    raises a [ValueError] (worded as CPython 3.12 does). *)
Definition random_randint (a b : Z) : R Z := λ g,
  if 0 <? b + 1 - a then
    let '(i, g') := randbelow (Z.to_nat (b + 1 - a)) g in
    (Ret (a + Z.of_nat i), g')
  else
    (Raise (Exn OtherException
              (py "empty range in randrange(" ++ str_of_int a ++ py ", "
               ++ str_of_int (b + 1) ++ py ")")), g).

(** The dictionary display is evaluated from its first entry to its last:
    the draws are made in that order. *)
Definition get_random_sample_data : R (gmap str str) :=
  x1 <- random_choice sample_universities ;;
  x2 <- random_choice sample_majors ;;
  x3 <- random_choice [py "Completed"; py "In Progress"] ;;
  x4 <- random_randint 2020 2024 ;;
  x5 <- random_choice [py "Attendance"; py "Inventory"; py "Learning"; py "Health"] ;;
  x6 <- random_choice sample_orgs ;;
  x7 <- random_choice sample_designations ;;
  x8 <- random_randint 1 5 ;;
  x9 <- random_choice [py "Current"; py "Previous"] ;;
  x10 <- random_choice sample_industries ;;
  x11 <- random_choice [py "developing"; py "managing"; py "analyzing"; py "designing"] ;;
  x12 <- random_choice [py "web applications"; py "data pipelines"; py "business processes"; py "user interfaces"] ;;
  x13 <- random_choice sample_skills ;;
  x14 <- random_choice [py "Photoshop"; py "Figma"; py "Tableau"; py "PowerBI"] ;;
  x15 <- random_choice [py "Reading"; py "Sports"; py "Music"; py "Traveling"; py "Photography"] ;;
  x16 <- random_choice [py "Technology"; py "Business"; py "Innovation"; py "Research"] ;;
  x17 <- random_choice [py "AWS Certified"; py "Google Certified"; py "Microsoft Certified"; py "PMP"] ;;
  x18 <- random_choice [py "Cloud Practitioner"; py "Data Analyst"; py "Azure Fundamentals"; py "Project Management"] ;;
  x19 <- random_choice [py "Dean's List"; py "Gold Medalist"; py "Merit Scholarship"; py "Best Graduate Award"] ;;
  x20 <- random_choice sample_achievements ;;
  x21 <- random_choice [py "Distinction"; py "Honors"; py "High GPA"] ;;
  x22 <- random_choice [py "Sarah"; py "John"; py "Michael"; py "Emma"; py "David"] ;;
  x23 <- random_choice [py "Khan"; py "Ahmad"; py "Hassan"; py "Sheikh"] ;;
  x24 <- random_choice [py "Professor"; py "Senior Manager"; py "Director"; py "Team Lead"] ;;
  x25 <- random_choice (sample_universities ++ sample_orgs) ;;
  rret (list_to_map [
    (py "university", x1);
    (py "major_subject", x2);
    (py "degree_status", x3);
    (py "passout_session", str_of_int x4);
    (py "final_year_project", py "Smart " ++ x5 ++ py " System using AI");
    (py "organization", x6);
    (py "designation", x7);
    (py "experience_years", str_of_int x8 ++ py " years");
    (py "experience_status", x9);
    (py "industry", x10);
    (py "work_detail", py "Responsible for " ++ x11 ++ py " " ++ x12);
    (py "technical_skills", x13);
    (py "it_skills", py "Microsoft Office, " ++ x14);
    (py "interests", x15 ++ py ", " ++ x16);
    (py "certifications", x17 ++ py " - " ++ x18);
    (py "medal_holder", x19);
    (py "achievements", x20);
    (py "honours", py "Graduated with " ++ x21);
    (py "ref_name", py "Dr. " ++ x22 ++ py " " ++ x23);
    (py "ref_designation", x24);
    (py "ref_organization", x25)
  ]).

(** The Autofill button: the sample replaces the autofill data and the
    page is run again. *)
Definition on_autofill : R (gmap str str * list event) :=
  sample <- get_random_sample_data ;;
  rret (sample, [Rerun]).

End Random.

(** ** The top of the page *)

Definition msg_key_not_found : str :=
  0x274C%N :: py " GROQ_API_KEY not found in environment variables".

Definition msg_check_configuration : str := py "Please check your API configuration".

(** The check of the key and of the connection that every run of the page
    starts with; [false] when [st.stop()] ends the run there. *)
Definition page_start (w : world) : M bool :=
  if negb (truthy (GROQ_API_KEY w)) then
    st_error msg_key_not_found ;;;
    ret false
  else
    r <- check_groq_connection w ;;
    if negb r.1 then
      st_error (0x274C%N :: py " Groq API Error: " ++ r.2) ;;;
      emit (StWarning msg_check_configuration) ;;;
      ret true
    else ret true.

(** ** The widgets as the page draws them *)

(** [seq.index(x)]; [None] stands for the [ValueError] raised when [x] is
    not in the list. *)
Fixpoint list_index (seq : list str) (x : str) : option nat :=
  match seq with
  | [] => None
  | y :: seq' => if bool_decide (y = x) then Some 0%nat else S <$> list_index seq' x
  end.

Definition degree_status_options : list str :=
  [py "Completed"; py "In Progress"; py "Expected"].

Definition experience_status_options : list str :=
  [py "Current"; py "Previous"; py "None"].

(** The options of the aspiration select box. *)
Definition aspiration_options : list str := [
  py "Interested in Job";
  py "Interested in studying abroad";
  py "Want to serve Family Business";
  py "New Start-up (Business)";
  py "Work as a freelancer";
  py "Want to continue studies in Pakistan"
].

(** The values of the widgets when nothing is typed or selected: a text
    field holds its [value=], a select box the option at its [index=] (the
    first one when none is given).  [None] when an [index=] raises. *)
Definition untouched_widgets (autofill : gmap str str) : option Widgets.t :=
  i ← list_index degree_status_options (get autofill "degree_status" (py "Completed"));
  degree_status ← degree_status_options !! i;
  j ← list_index experience_status_options
        (get autofill "experience_status" (py "None"));
  experience_status ← experience_status_options !! j;
  aspiration ← aspiration_options !! 0%nat;
  Some {| Widgets.university := get autofill "university" [];
          Widgets.major_subject := get autofill "major_subject" [];
          Widgets.degree_status := degree_status;
          Widgets.passout_session := get autofill "passout_session" [];
          Widgets.final_year_project := get autofill "final_year_project" [];
          Widgets.organization := get autofill "organization" [];
          Widgets.designation := get autofill "designation" [];
          Widgets.experience_years := get autofill "experience_years" [];
          Widgets.experience_status := experience_status;
          Widgets.industry := get autofill "industry" [];
          Widgets.work_detail := get autofill "work_detail" [];
          Widgets.technical_skills := get autofill "technical_skills" [];
          Widgets.it_skills := get autofill "it_skills" [];
          Widgets.interests := get autofill "interests" [];
          Widgets.certifications := get autofill "certifications" [];
          Widgets.medal_holder := get autofill "medal_holder" [];
          Widgets.achievements := get autofill "achievements" [];
          Widgets.honours := get autofill "honours" [];
          Widgets.ref_name := get autofill "ref_name" [];
          Widgets.ref_designation := get autofill "ref_designation" [];
          Widgets.ref_organization := get autofill "ref_organization" [];
          Widgets.aspiration := aspiration |}.

(** * Definitions used to state the further properties *)

(** The request [check_groq_connection] builds. *)
Definition probe_request (w : world) : request :=
  Request GROQ_API_URL (bearer w) (py "application/json")
    {| model := GROQ_MODEL;
       messages := [Message (py "user") (py "Hello")];
       max_tokens := 5;
       temperature := None;
       top_p := None |}
    10.

(** A line feed. *)
Definition nl : str := [10%N].

(** The labelled lines of the user prompt: label, key of the profile and
    placeholder of [data.get]. *)
Definition prompt_fields : list (string * string * str) := [
  ("CAREER ASPIRATION: ", "aspiration", []);
  ("University: ", "university", py "N/A");
  ("Major Subject: ", "major_subject", py "N/A");
  ("Status: ", "degree_status", []);
  ("Pass out: ", "passout_session", py "N/A");
  ("Final Year Project: ", "final_year_project", py "N/A");
  ("Organization: ", "organization", py "N/A");
  ("Designation: ", "designation", []);
  ("Years: ", "experience_years", []);
  ("Status: ", "experience_status", []);
  ("Industry: ", "industry", []);
  ("Work Detail: ", "work_detail", py "N/A");
  ("Technical Skills: ", "technical_skills", []);
  ("IT Skills: ", "it_skills", py "N/A");
  ("Interests: ", "interests", py "N/A");
  ("Certifications: ", "certifications", py "N/A");
  ("Awards: ", "medal_holder", py "N/A");
  ("ACHIEVEMENTS:
", "achievements", []);
  ("HONOURS:
", "honours", py "N/A");
  ("Name: ", "ref_name", py "N/A");
  ("Designation: ", "ref_designation", py "N/A");
  ("Organization: ", "ref_organization", py "N/A")
].

(** The keys of the dictionary the submit handler builds. *)
Definition form_keys : list string :=
  (λ e : string * string * str, e.1.2) <$> prompt_fields.

(** A profile that holds an aspiration and nothing else. *)
Definition only_aspiration (a : str) : gmap str str := {[ py "aspiration" := a ]}.

(** The sessions the page can be in: the handlers run only when the key is
    present, and the Regenerate button is drawn only under a generated
    section. *)
Inductive reachable : session → Prop :=
  | reach_initial : reachable initial_session
  | reach_submit (w : world) (v : Widgets.t) (s : session) :
      reachable s → GROQ_API_KEY w ≠ [] → reachable (on_submit w v s).1
  | reach_regenerate (w : world) (s : session) :
      reachable s → GROQ_API_KEY w ≠ [] → generated_section s ≠ None →
      reachable (on_regenerate w s).1.

(** What every reachable session satisfies. *)
Definition session_invariant (s : session) : Prop :=
  0 ≤ variation_count s
  ∧ (form_data s = ∅
     ∨ ∃ v, form_data s = make_form_data v ∧ Widgets.achievements v ≠ [])
  ∧ ∀ sec, generated_section s = Some sec →
      form_data s ≠ ∅
      ∧ sec_text sec ≠ []
      ∧ 1 ≤ sec_variation sec
      ∧ (variation_count s = sec_variation sec ∨ variation_count s = 0)
      ∧ (variation_count s = sec_variation sec →
         sec_aspiration sec = aspiration (form_data s)
         ∧ sec_market sec = target_market (form_data s)
         ∧ sec_designation sec = get (form_data s) "designation" []
         ∧ sec_university sec = get (form_data s) "university" []).

(** A server that answers 429 with a short body. *)
Definition throttled_world : world :=
  World (py "gsk_test") (fun _ => Ret (Response 429 (py "Rate limit reached") (Ret JNone)))
        0.5%float (py "2024-01-01 00:00:00").


(** Whether an event is an error shown to the user. *)
Definition is_st_error (ev : event) : bool :=
  match ev with StError _ => true | _ => false end.

(** The keys of the sample data: those of the form without the aspiration. *)
Definition sample_keys : list string := drop 1 form_keys.

(** A generator for the examples: a counter, reduced modulo the bound. *)
Definition counter_randbelow (n : nat) (g : nat) : nat * nat := ((g `mod` n)%nat, S g).

(** The dictionary [get_random_sample_data] builds from its 25 draws. *)
Definition sample_dict (x1 : str) (x2 : str) (x3 : str) (x4 : Z) (x5 : str) (x6 : str) (x7 : str) (x8 : Z) (x9 : str) (x10 : str) (x11 : str) (x12 : str) (x13 : str) (x14 : str) (x15 : str) (x16 : str) (x17 : str) (x18 : str) (x19 : str) (x20 : str) (x21 : str) (x22 : str) (x23 : str) (x24 : str) (x25 : str) : gmap str str :=
  list_to_map [
    (py "university", x1);
    (py "major_subject", x2);
    (py "degree_status", x3);
    (py "passout_session", str_of_int x4);
    (py "final_year_project", py "Smart " ++ x5 ++ py " System using AI");
    (py "organization", x6);
    (py "designation", x7);
    (py "experience_years", str_of_int x8 ++ py " years");
    (py "experience_status", x9);
    (py "industry", x10);
    (py "work_detail", py "Responsible for " ++ x11 ++ py " " ++ x12);
    (py "technical_skills", x13);
    (py "it_skills", py "Microsoft Office, " ++ x14);
    (py "interests", x15 ++ py ", " ++ x16);
    (py "certifications", x17 ++ py " - " ++ x18);
    (py "medal_holder", x19);
    (py "achievements", x20);
    (py "honours", py "Graduated with " ++ x21);
    (py "ref_name", py "Dr. " ++ x22 ++ py " " ++ x23);
    (py "ref_designation", x24);
    (py "ref_organization", x25)
  ].

(** Where each draw comes from. *)
Definition sample_draws (x1 : str) (x2 : str) (x3 : str) (x4 : Z) (x5 : str) (x6 : str) (x7 : str) (x8 : Z) (x9 : str) (x10 : str) (x11 : str) (x12 : str) (x13 : str) (x14 : str) (x15 : str) (x16 : str) (x17 : str) (x18 : str) (x19 : str) (x20 : str) (x21 : str) (x22 : str) (x23 : str) (x24 : str) (x25 : str) : Prop :=
  x1 ∈ sample_universities
  ∧ x2 ∈ sample_majors
  ∧ x3 ∈ [py "Completed"; py "In Progress"]
  ∧ 2020 ≤ x4 ≤ 2024
  ∧ x5 ∈ [py "Attendance"; py "Inventory"; py "Learning"; py "Health"]
  ∧ x6 ∈ sample_orgs
  ∧ x7 ∈ sample_designations
  ∧ 1 ≤ x8 ≤ 5
  ∧ x9 ∈ [py "Current"; py "Previous"]
  ∧ x10 ∈ sample_industries
  ∧ x11 ∈ [py "developing"; py "managing"; py "analyzing"; py "designing"]
  ∧ x12 ∈ [py "web applications"; py "data pipelines"; py "business processes"; py "user interfaces"]
  ∧ x13 ∈ sample_skills
  ∧ x14 ∈ [py "Photoshop"; py "Figma"; py "Tableau"; py "PowerBI"]
  ∧ x15 ∈ [py "Reading"; py "Sports"; py "Music"; py "Traveling"; py "Photography"]
  ∧ x16 ∈ [py "Technology"; py "Business"; py "Innovation"; py "Research"]
  ∧ x17 ∈ [py "AWS Certified"; py "Google Certified"; py "Microsoft Certified"; py "PMP"]
  ∧ x18 ∈ [py "Cloud Practitioner"; py "Data Analyst"; py "Azure Fundamentals"; py "Project Management"]
  ∧ x19 ∈ [py "Dean's List"; py "Gold Medalist"; py "Merit Scholarship"; py "Best Graduate Award"]
  ∧ x20 ∈ sample_achievements
  ∧ x21 ∈ [py "Distinction"; py "Honors"; py "High GPA"]
  ∧ x22 ∈ [py "Sarah"; py "John"; py "Michael"; py "Emma"; py "David"]
  ∧ x23 ∈ [py "Khan"; py "Ahmad"; py "Hassan"; py "Sheikh"]
  ∧ x24 ∈ [py "Professor"; py "Senior Manager"; py "Director"; py "Team Lead"]
  ∧ x25 ∈ (sample_universities ++ sample_orgs).

(** The widgets the page draws from that dictionary. *)
Definition sample_form (x1 : str) (x2 : str) (x3 : str) (x4 : Z) (x5 : str) (x6 : str) (x7 : str) (x8 : Z) (x9 : str) (x10 : str) (x11 : str) (x12 : str) (x13 : str) (x14 : str) (x15 : str) (x16 : str) (x17 : str) (x18 : str) (x19 : str) (x20 : str) (x21 : str) (x22 : str) (x23 : str) (x24 : str) (x25 : str) : Widgets.t :=
  {|
     Widgets.university := x1;
     Widgets.major_subject := x2;
     Widgets.degree_status := x3;
     Widgets.passout_session := str_of_int x4;
     Widgets.final_year_project := py "Smart " ++ x5 ++ py " System using AI";
     Widgets.organization := x6;
     Widgets.designation := x7;
     Widgets.experience_years := str_of_int x8 ++ py " years";
     Widgets.experience_status := x9;
     Widgets.industry := x10;
     Widgets.work_detail := py "Responsible for " ++ x11 ++ py " " ++ x12;
     Widgets.technical_skills := x13;
     Widgets.it_skills := py "Microsoft Office, " ++ x14;
     Widgets.interests := x15 ++ py ", " ++ x16;
     Widgets.certifications := x17 ++ py " - " ++ x18;
     Widgets.medal_holder := x19;
     Widgets.achievements := x20;
     Widgets.honours := py "Graduated with " ++ x21;
     Widgets.ref_name := py "Dr. " ++ x22 ++ py " " ++ x23;
     Widgets.ref_designation := x24;
     Widgets.ref_organization := x25;
     Widgets.aspiration := py "Interested in Job" |}.

(** Clicks on Regenerate, one after the other, each in its own world. *)
Definition regenerations (ws : list world) (s : session) : session :=
  foldl (λ s w, (on_regenerate w s).1) s ws.

(** A completion whose message carries the value [x] as content. *)
Definition completion_with (x : json) : json :=
  JDict {[ py "choices" :=
             JList [JDict {[ py "message" := JDict {[ py "content" := x ]} ]}] ]}.

(** * Properties *)

(** ** Market classification *)

(** C2: the market is "International" exactly when the aspiration is
    "Interested in studying abroad" or "Work as a freelancer"; for every
    other aspiration, and so for the four remaining values of the form's
    list, it is "Pakistan". *)
Theorem target_market_spec (data : gmap str str) :
  (target_market data = py "International" ↔
     aspiration data = py "Interested in studying abroad"
     ∨ aspiration data = py "Work as a freelancer")
  ∧ (¬ (aspiration data = py "Interested in studying abroad"
        ∨ aspiration data = py "Work as a freelancer") →
     target_market data = py "Pakistan")
  ∧ (aspiration data ∈ remaining_aspirations → target_market data = py "Pakistan").
Proof.
  unfold target_market.
  assert (Hin : aspiration data ∈ [py "Interested in studying abroad";
                                   py "Work as a freelancer"]
                ↔ aspiration data = py "Interested in studying abroad"
                  ∨ aspiration data = py "Work as a freelancer").
  { rewrite !elem_of_cons, elem_of_nil. tauto. }
  split; [|split].
  - case_bool_decide as H; split; intros H'; try tauto.
    + discriminate H'.
  - intros Hn. case_bool_decide as H; [tauto | reflexivity].
  - intros Hrem. case_bool_decide as H; [|reflexivity].
    apply Hin in H. unfold remaining_aspirations in Hrem.
    rewrite !elem_of_cons, elem_of_nil in Hrem.
    destruct H as [H|H]; rewrite H in Hrem;
      repeat (destruct Hrem as [Hrem|Hrem]; [discriminate Hrem|]); contradiction.
Qed.

Lemma target_market_spec_witness :
  aspiration job_profile ∈ remaining_aspirations
  ∧ target_market job_profile = py "Pakistan".
Proof.
  assert (H : aspiration job_profile ∈ remaining_aspirations).
  { assert (E : aspiration job_profile = py "Interested in Job") by (vm_compute; reflexivity).
    rewrite E. apply list_elem_of_here. }
  split; [exact H|].
  exact (proj2 (proj2 (target_market_spec job_profile)) H).
Defined.

(** ** The completion client, one call at a time *)

Lemma truthy_false (s : str) : truthy s = false ↔ s = [].
Proof. destruct s; simpl; split; congruence. Qed.

Lemma truthy_true (s : str) : truthy s = true ↔ s ≠ [].
Proof. destruct s; simpl; split; congruence. Qed.

Lemma handler_classify (e : exn) (t : list event) :
  (let '(r, t') :=
     (if isinstance_Timeout e then st_error msg_timed_out ;;; ret None
      else if isinstance_ConnectionError e then st_error msg_cannot_connect ;;; ret None
      else st_error (msg_error_generating e) ;;; ret (@None str)) in
   (r, t ++ t'))
  = (Ret None, t ++ surfaced (classify_exn e)).
Proof.
  unfold classify_exn.
  destruct (isinstance_Timeout e); [reflexivity|].
  destruct (isinstance_ConnectionError e); reflexivity.
Qed.

(** With a key, the client posts once and returns what [attempt] says. *)
Lemma generate_with_groq_run (w : world) (prompt system_prompt : str) (temp : float) :
  GROQ_API_KEY w ≠ [] →
  generate_with_groq w prompt system_prompt temp =
  let req := groq_request w prompt system_prompt temp in
  match attempt (requests_post w req) with
  | inl f => (Ret None, Post req :: surfaced f)
  | inr s => (Ret (Some s), [Post req])
  end.
Proof.
  intros Hkey. apply truthy_true in Hkey.
  unfold generate_with_groq. rewrite Hkey. simpl negb. cbv iota.
  fold (groq_request w prompt system_prompt temp).
  set (req := groq_request w prompt system_prompt temp).
  unfold post, try_except, bind, emit, lift, attempt. cbv zeta.
  destruct (requests_post w req) as [resp|e].
  - destruct (status_code resp =? 200).
    + unfold first_choice_content, bind_outcome.
      destruct (json_body resp) as [result|e]; [|apply (handler_classify e [Post req])].
      destruct (json_get result _ _) as [choices|e]; [|apply (handler_classify e [Post req])].
      destruct (json_item0 choices) as [choice|e]; [|apply (handler_classify e [Post req])].
      destruct (json_get choice _ _) as [message|e]; [|apply (handler_classify e [Post req])].
      destruct (json_get message _ _) as [c|e]; [|apply (handler_classify e [Post req])].
      destruct (json_strip c) as [s|e]; [|apply (handler_classify e [Post req])].
      reflexivity.
    + reflexivity.
  - apply (handler_classify e [Post req]).
Qed.

Lemma generate_with_groq_no_key (w : world) (prompt system_prompt : str) (temp : float) :
  GROQ_API_KEY w = [] →
  generate_with_groq w prompt system_prompt temp = (Ret None, surfaced ConfigMissing).
Proof. intros Hkey. unfold generate_with_groq. rewrite Hkey. reflexivity. Qed.

Lemma network_calls_surfaced (f : failure) : network_calls (surfaced f) = 0%nat.
Proof. destruct f; reflexivity. Qed.

(** The classes are told apart by what the user sees. *)
Lemma surfaced_same_class (f f' : failure) :
  surfaced f = surfaced f' → same_class f f'.
Proof.
  destruct f, f'; simpl; intros H; try exact I;
    unfold msg_key_missing, msg_timed_out, msg_cannot_connect,
      msg_error_generating in H;
    vm_compute in H; discriminate H.
Qed.

(** C5: without a key the client fails before any network call; with a
    key it makes exactly one call and returns either the text or [None]
    after showing exactly one failure class, chosen in the order timeout,
    connection failure, non-200 status, any other exception.  It never
    raises. *)
Theorem completion_client_single_attempt
    (w : world) (prompt system_prompt : str) (temp : float) :
  let run := generate_with_groq w prompt system_prompt temp in
  let req := groq_request w prompt system_prompt temp in
  (GROQ_API_KEY w = [] →
     run = (Ret None, surfaced ConfigMissing) ∧ network_calls run.2 = 0%nat)
  ∧ (GROQ_API_KEY w ≠ [] →
     network_calls run.2 = 1%nat
     ∧ filter is_post run.2 = [Post req]
     ∧ match requests_post w req with
       | Raise e =>
           if isinstance_Timeout e then run = (Ret None, Post req :: surfaced FTimeout)
           else if isinstance_ConnectionError e then
             run = (Ret None, Post req :: surfaced FConnectionError)
           else run = (Ret None, Post req :: surfaced (UnknownError e))
       | Ret resp =>
           if status_code resp =? 200 then
             match bind_outcome (json_body resp) first_choice_content with
             | Ret s => run = (Ret (Some s), [Post req])
             | Raise e => run = (Ret None, Post req :: surfaced (classify_exn e))
             end
           else
             run = (Ret None,
                    Post req :: surfaced (ServerError (status_code resp) (text resp)))
       end)
  ∧ (∀ e, run.1 ≠ Raise e)
  ∧ (∀ f f', surfaced f = surfaced f' → same_class f f').
Proof.
  intros run req. split; [|split; [|split]].
  - intros Hkey. subst run. rewrite generate_with_groq_no_key by exact Hkey.
    split; reflexivity.
  - intros Hkey. subst run. rewrite generate_with_groq_run by exact Hkey.
    cbv zeta. fold req.
    assert (Hcalls : ∀ f, network_calls (Post req :: surfaced f) = 1%nat).
    { intros f. pose proof (network_calls_surfaced f) as H0.
      unfold network_calls in *. simpl filter. simpl length. rewrite H0. reflexivity. }
    assert (Hfilter : ∀ f, filter is_post (Post req :: surfaced f) = [Post req]).
    { intros f. destruct f; reflexivity. }
    unfold attempt. destruct (requests_post w req) as [resp|e].
    + destruct (status_code resp =? 200).
      * destruct (bind_outcome _ _) as [s|e].
        -- repeat split.
        -- split; [apply Hcalls|]. split; [apply Hfilter | reflexivity].
      * split; [apply Hcalls|]. split; [apply Hfilter | reflexivity].
    + split; [apply Hcalls|]. split; [apply Hfilter|].
      unfold classify_exn. destruct (isinstance_Timeout e); [reflexivity|].
      destruct (isinstance_ConnectionError e); reflexivity.
  - intros e. subst run. destruct (decide (GROQ_API_KEY w = [])) as [Hkey|Hkey].
    + rewrite generate_with_groq_no_key by exact Hkey. discriminate.
    + rewrite generate_with_groq_run by exact Hkey. cbv zeta.
      destruct (attempt _); discriminate.
  - apply surfaced_same_class.
Qed.

Lemma completion_client_single_attempt_witness :
  GROQ_API_KEY unreachable_world ≠ []
  ∧ network_calls (generate_with_groq unreachable_world (py "p") (py "s") 0.9%float).2
    = 1%nat.
Proof.
  assert (Hkey : GROQ_API_KEY unreachable_world ≠ []) by discriminate.
  split; [exact Hkey|].
  exact (proj1 (proj1 (proj2
    (completion_client_single_attempt unreachable_world (py "p") (py "s") 0.9%float))
    Hkey)).
Defined.

(** A connect timeout is both a [Timeout] and a [ConnectionError]: the
    first [except] clause takes it. *)
Lemma connect_timeout_is_timeout :
  generate_with_groq unreachable_world (py "p") (py "s") 0.9%float =
    (Ret None,
     [Post (groq_request unreachable_world (py "p") (py "s") 0.9%float);
      StError msg_timed_out]).
Proof. reflexivity. Qed.

(** ** Non-200 responses *)

(** The connectivity probe reports the status and at most 100 characters
    of the body, and does not raise. *)
Lemma check_groq_connection_status (w : world) (resp : response) :
  GROQ_API_KEY w ≠ [] →
  (∀ req, requests_post w req = Ret resp) →
  status_code resp ≠ 200 →
  ∃ req snippet,
    check_groq_connection w =
      (Ret (false, py "Status: " ++ str_of_int (status_code resp) ++ py " - " ++ snippet),
       [Post req])
    ∧ snippet = take 100 (text resp)
    ∧ (length snippet ≤ 100)%nat.
Proof.
  intros Hkey Hpost Hstatus. apply truthy_true in Hkey.
  unfold check_groq_connection. rewrite Hkey. simpl negb. cbv iota.
  unfold post, try_except, bind, emit, lift. rewrite Hpost.
  apply Z.eqb_neq in Hstatus. rewrite Hstatus.
  eexists _, _. split; [reflexivity|]. split; [reflexivity|].
  rewrite length_take. lia.
Qed.

(** The generation path shows the status and then the whole body. *)
Lemma generate_with_groq_status (w : world) (prompt system_prompt : str)
    (temp : float) (resp : response) :
  GROQ_API_KEY w ≠ [] →
  requests_post w (groq_request w prompt system_prompt temp) = Ret resp →
  status_code resp ≠ 200 →
  generate_with_groq w prompt system_prompt temp =
    (Ret None,
     [Post (groq_request w prompt system_prompt temp);
      StError (py "Groq API returned status code: " ++ str_of_int (status_code resp));
      StError (py "Response: " ++ text resp)]).
Proof.
  intros Hkey Hpost Hstatus.
  rewrite generate_with_groq_run by exact Hkey. cbv zeta.
  unfold attempt. rewrite Hpost.
  apply Z.eqb_neq in Hstatus. rewrite Hstatus. reflexivity.
Qed.

(** C6, at a 500 response with a 101-character body: the probe keeps 100
    characters of the body, the generation path shows all 101. *)
Theorem server_error_body_not_truncated :
  ∃ probe,
    check_groq_connection failing_world =
      (Ret (false, py "Status: 500 - " ++ replicate 100 120%N), [Post probe])
  ∧ generate_with_groq failing_world (py "p") (py "s") 0.9%float =
      (Ret None,
       [Post (groq_request failing_world (py "p") (py "s") 0.9%float);
        StError (py "Groq API returned status code: 500");
        StError (py "Response: " ++ long_body)])
  ∧ length long_body = 101%nat.
Proof.
  eexists. split; [|split]; reflexivity.
Qed.

(** ** Extraction of the text from a 200 response *)

Section Extraction.
Variables (w : world) (prompt system_prompt : str) (temp : float).
Variables (resp : response) (d : gmap str json).

Hypothesis key_present : GROQ_API_KEY w ≠ [].
Hypothesis answered :
  requests_post w (groq_request w prompt system_prompt temp) = Ret resp.
Hypothesis status_ok : status_code resp = 200.
Hypothesis body_is_object : json_body resp = Ret (JDict d).

Let run := generate_with_groq w prompt system_prompt temp.
Let req := groq_request w prompt system_prompt temp.

Lemma run_extraction :
  run = match first_choice_content (JDict d) with
        | Ret s => (Ret (Some s), [Post req])
        | Raise e => (Ret None, Post req :: surfaced (classify_exn e))
        end.
Proof.
  subst run req. rewrite generate_with_groq_run by exact key_present.
  cbv zeta. unfold attempt. rewrite answered, status_ok, body_is_object.
  simpl. destruct (first_choice_content (JDict d)); reflexivity.
Qed.

Lemma content_present (c m : gmap str json) (rest : list json) (s : str) :
  d !! py "choices" = Some (JList (JDict c :: rest)) →
  c !! py "message" = Some (JDict m) →
  m !! py "content" = Some (JStr s) →
  run = (Ret (Some (strip s)), [Post req]).
Proof.
  intros Hc Hm Hs. rewrite run_extraction.
  unfold first_choice_content, json_get. rewrite Hc. simpl.
  rewrite Hm. simpl. rewrite Hs. reflexivity.
Qed.

Lemma choices_absent :
  d !! py "choices" = None → run = (Ret (Some []), [Post req]).
Proof.
  intros Hc. rewrite run_extraction.
  unfold first_choice_content, json_get. rewrite Hc. reflexivity.
Qed.

Lemma message_absent (c : gmap str json) (rest : list json) :
  d !! py "choices" = Some (JList (JDict c :: rest)) →
  c !! py "message" = None →
  run = (Ret (Some []), [Post req]).
Proof.
  intros Hc Hm. rewrite run_extraction.
  unfold first_choice_content, json_get. rewrite Hc. simpl.
  rewrite Hm. reflexivity.
Qed.

Lemma content_absent (c m : gmap str json) (rest : list json) :
  d !! py "choices" = Some (JList (JDict c :: rest)) →
  c !! py "message" = Some (JDict m) →
  m !! py "content" = None →
  run = (Ret (Some []), [Post req]).
Proof.
  intros Hc Hm Hs. rewrite run_extraction.
  unfold first_choice_content, json_get. rewrite Hc. simpl.
  rewrite Hm. simpl. rewrite Hs. reflexivity.
Qed.

Lemma choices_empty :
  d !! py "choices" = Some (JList []) →
  run = (Ret None,
         [Post req;
          StError (msg_error_generating
                     (Exn IndexError (py "list index out of range")))]).
Proof.
  intros Hc. rewrite run_extraction.
  unfold first_choice_content, json_get. rewrite Hc. reflexivity.
Qed.
End Extraction.

(** C8, as the code has it: on a 200 response whose body is a JSON object,
    the client returns the stripped content of the first choice's message;
    it returns the empty string when the key "choices" is absent, when the
    first choice is an object without "message", and when the message is an
    object without "content"; on an empty "choices" array it reports a
    generic error and returns [None].  It raises in none of these cases. *)
Theorem extraction_on_200
    (w : world) (prompt system_prompt : str) (temp : float)
    (resp : response) (d : gmap str json) :
  GROQ_API_KEY w ≠ [] →
  requests_post w (groq_request w prompt system_prompt temp) = Ret resp →
  status_code resp = 200 →
  json_body resp = Ret (JDict d) →
  let run := generate_with_groq w prompt system_prompt temp in
  let req := groq_request w prompt system_prompt temp in
  (∀ c m rest s,
     d !! py "choices" = Some (JList (JDict c :: rest)) →
     c !! py "message" = Some (JDict m) →
     m !! py "content" = Some (JStr s) →
     run = (Ret (Some (strip s)), [Post req]))
  ∧ (d !! py "choices" = None → run = (Ret (Some []), [Post req]))
  ∧ (∀ c rest,
       d !! py "choices" = Some (JList (JDict c :: rest)) →
       c !! py "message" = None →
       run = (Ret (Some []), [Post req]))
  ∧ (∀ c m rest,
       d !! py "choices" = Some (JList (JDict c :: rest)) →
       c !! py "message" = Some (JDict m) →
       m !! py "content" = None →
       run = (Ret (Some []), [Post req]))
  ∧ (d !! py "choices" = Some (JList []) →
     run = (Ret None,
            [Post req;
             StError (msg_error_generating
                        (Exn IndexError (py "list index out of range")))])).
Proof.
  intros Hkey Hpost Hstatus Hbody run req.
  split; [|split; [|split; [|split]]].
  - intros c m rest s. by apply content_present with (resp := resp).
  - by apply choices_absent with (resp := resp).
  - intros c rest. by apply message_absent with (resp := resp).
  - intros c m rest. by apply content_absent with (resp := resp).
  - by apply choices_empty with (resp := resp).
Qed.

Lemma extraction_on_200_witness :
  generate_with_groq (answering_world (completion (py "  Hello. "))) (py "p") (py "s")
    0.9%float
  = (Ret (Some (py "Hello.")),
     [Post (groq_request (answering_world (completion (py "  Hello. ")))
              (py "p") (py "s") 0.9%float)]).
Proof.
  refine (proj1 (extraction_on_200 (answering_world (completion (py "  Hello. ")))
            (py "p") (py "s") 0.9%float
            (Response 200 [] (Ret (completion (py "  Hello. ")))) _ _ _ _ _)
          _ _ [] (py "  Hello. ") _ _ _);
    first [discriminate | reflexivity].
Defined.

(** C8 as stated fails on an empty "choices" array: the index raises, the
    generic handler reports it and the client returns [None], not the
    empty string. *)
Lemma empty_choices_returns_None :
  let run := generate_with_groq
               (answering_world (JDict {[ py "choices" := JList [] ]}))
               (py "p") (py "s") 0.9%float in
  run.1 = Ret None ∧ run.1 ≠ Ret (Some []).
Proof. split; [reflexivity | discriminate]. Qed.

(** ** Stripping *)

Lemma lstrip_head (s : str) :
  lstrip s = [] ∨ ∃ c s', lstrip s = c :: s' ∧ isspace c = false.
Proof.
  induction s as [|c s IH]; simpl; [by left|].
  destruct (isspace c) eqn:Hc; [exact IH|]. right. by exists c, s.
Qed.

Lemma lstrip_all_space (s : str) :
  Forall (λ c, isspace c = true) s → lstrip s = [].
Proof.
  induction 1 as [|c s Hc _ IH]; simpl; [reflexivity|]. by rewrite Hc.
Qed.

(** A stripped string made of whitespace only is empty. *)
Lemma strip_all_space (s : str) :
  Forall (λ c, isspace c = true) (strip s) → strip s = [].
Proof.
  unfold strip, rstrip. intros Hall.
  destruct (lstrip_head (reverse (lstrip s))) as [E|(c & s' & E & Hc)].
  - rewrite E. reflexivity.
  - rewrite E in Hall. rewrite Forall_forall in Hall.
    assert (Hin : c ∈ reverse (c :: s')).
    { rewrite elem_of_reverse. apply list_elem_of_here. }
    apply Hall in Hin. congruence.
Qed.

Lemma strip_of_all_space (s : str) :
  Forall (λ c, isspace c = true) s → strip s = [].
Proof.
  intros Hall. unfold strip. rewrite (lstrip_all_space s Hall). reflexivity.
Qed.

(** Whatever text the client returns has been stripped. *)
Lemma generate_with_groq_stripped (w : world) (prompt system_prompt : str)
    (temp : float) (t : str) :
  (generate_with_groq w prompt system_prompt temp).1 = Ret (Some t) →
  ∃ s, t = strip s.
Proof.
  destruct (decide (GROQ_API_KEY w = [])) as [Hkey|Hkey].
  { rewrite generate_with_groq_no_key by exact Hkey. discriminate. }
  rewrite generate_with_groq_run by exact Hkey. cbv zeta.
  destruct (attempt _) as [f|s] eqn:Hatt; [discriminate|].
  simpl. intros [= <-].
  unfold attempt in Hatt.
  destruct (requests_post w _) as [resp|e]; [|discriminate Hatt].
  destruct (status_code resp =? 200); [|discriminate Hatt].
  destruct (json_body resp) as [result|e]; [|simpl in Hatt; destruct (classify_exn e); discriminate Hatt].
  simpl in Hatt. unfold first_choice_content, bind_outcome in Hatt.
  destruct (json_get result _ _) as [choices|e]; [|discriminate Hatt].
  destruct (json_item0 choices) as [choice|e]; [|discriminate Hatt].
  destruct (json_get choice _ _) as [message|e]; [|discriminate Hatt].
  destruct (json_get message _ _) as [c|e]; [|discriminate Hatt].
  destruct c; simpl in Hatt; try discriminate Hatt.
  injection Hatt as <-. by eexists.
Qed.

(** ** The composer *)

Lemma variation_styles_length : length variation_styles = 10%nat.
Proof. reflexivity. Qed.

Lemma variation_styles_NoDup : NoDup variation_styles.
Proof.
  assert (H : bool_decide (NoDup variation_styles) = true) by (vm_compute; reflexivity).
  exact (bool_decide_eq_true_1 _ H).
Qed.

(** The index is always in range: the selection never raises. *)
Lemma variation_style_total (n : Z) :
  ∃ s, variation_styles !! Z.to_nat (n `mod` 10) = Some s ∧ variation_style n = Ret s.
Proof.
  destruct (lookup_lt_is_Some_2 variation_styles (Z.to_nat (n `mod` 10))) as [s Hs].
  { rewrite variation_styles_length. pose proof (Z.mod_pos_bound n 10). lia. }
  exists s. split; [exact Hs|].
  unfold variation_style. rewrite variation_styles_length.
  change (Z.of_nat 10) with 10. rewrite Hs. reflexivity.
Qed.

Lemma generate_cv_sections_run (w : world) (data : gmap str str) (n : Z) (s : str) :
  variation_style n = Ret s →
  generate_cv_sections w data n =
    match client_call w data n s with
    | (Ret (Some t), tr) =>
        if truthy t then (Ret (Some (section_of w data n t)), tr) else (Ret None, tr)
    | (Ret None, tr) => (Ret None, tr)
    | (Raise e, tr) => (Raise e, tr)
    end.
Proof.
  intros Hs. unfold generate_cv_sections, client_call, section_of.
  rewrite Hs. unfold lift, bind at 1.
  destruct (generate_with_groq _ _ _ _) as [[[t|]|e] tr]; simpl.
  - destruct (truthy t); simpl; by rewrite app_nil_r.
  - by rewrite app_nil_r.
  - reflexivity.
Qed.

(** C10: [generate_cv_sections] returns [None] when the client returns
    [None], and also when the client returns an empty or whitespace-only
    text; every record it returns has a non-empty text. *)
Theorem empty_text_is_no_result (w : world) (data : gmap str str) (n : Z) :
  ∃ s, variation_style n = Ret s
  ∧ ((client_call w data n s).1 = Ret None →
     (generate_cv_sections w data n).1 = Ret None)
  ∧ (∀ t, (client_call w data n s).1 = Ret (Some t) →
          Forall (λ c, isspace c = true) t →
          (generate_cv_sections w data n).1 = Ret None)
  ∧ (∀ sec, (generate_cv_sections w data n).1 = Ret (Some sec) →
            sec_text sec ≠ []
            ∧ (client_call w data n s).1 = Ret (Some (sec_text sec))).
Proof.
  destruct (variation_style_total n) as (s & _ & Hs). exists s.
  split; [exact Hs|].
  rewrite (generate_cv_sections_run w data n s Hs).
  split; [|split].
  - destruct (client_call w data n s) as [[[t|]|e] tr]; simpl; try discriminate.
    reflexivity.
  - intros t Ht Hspace.
    destruct (generate_with_groq_stripped _ _ _ _ _ Ht) as [s0 ->].
    apply strip_all_space in Hspace.
    destruct (client_call w data n s) as [[[t'|]|e] tr]; simpl in *; try discriminate.
    injection Ht as ->. rewrite Hspace. reflexivity.
  - intros sec.
    destruct (client_call w data n s) as [[[t|]|e] tr]; simpl; try discriminate.
    destruct (truthy t) eqn:Ht; simpl; [|discriminate].
    intros [= <-]. simpl. split; [by apply truthy_true | reflexivity].
Qed.

Lemma empty_text_is_no_result_witness :
  (generate_cv_sections (answering_world (completion (py "   "))) startup_profile 0).1
  = Ret None.
Proof.
  destruct (empty_text_is_no_result (answering_world (completion (py "   ")))
              startup_profile 0) as (s & Hs & _ & Hblank & _).
  apply (Hblank []).
  - injection Hs as <-. reflexivity.
  - constructor.
Defined.

Lemma system_prompt_variation (data : gmap str str) (n : Z) :
  system_prompt data n =
    (py "You are an expert CV writer for " ++ target_market data
     ++ py " job markets. 
Always write exactly 70 words. Write in first person perspective.
Create a unique and compelling narrative each time, varying sentence structure and emphasis.
")
    ++ (py "Variation #" ++ str_of_int (n + 1))
    ++ py " - Make this version distinctly different from previous versions.".
Proof.
  unfold system_prompt. rewrite <- !app_assoc. do 2 f_equal.
Qed.

Lemma contains_system_prompt (data : gmap str str) (n : Z) :
  contains (py "Variation #" ++ str_of_int (n + 1)) (system_prompt data n).
Proof. eexists _, _. apply system_prompt_variation. Qed.

(** C3: the system prompt contains "Variation #" followed by n+1; when the
    client returns a text, the record returned carries that text, variation
    n+1, the classified market and the profile's aspiration.  For the
    start-up profile at index 3 the style is entry 3 of the list, the
    market is "Pakistan", the prompt sent contains "Variation #4" and the
    record has variation 4. *)
Theorem variation_number_echoed (w : world) (data : gmap str str) (n : Z) :
  contains (py "Variation #" ++ str_of_int (n + 1)) (system_prompt data n)
  ∧ (∃ s, variation_style n = Ret s
        ∧ ∀ t, (client_call w data n s).1 = Ret (Some t) → t ≠ [] →
            ∃ sec, (generate_cv_sections w data n).1 = Ret (Some sec)
                   ∧ sec_text sec = t
                   ∧ sec_variation sec = n + 1
                   ∧ sec_market sec = target_market data
                   ∧ sec_aspiration sec = aspiration data)
  ∧ (let w0 := answering_world (completion entrepreneur_text) in
     let style3 :=
       py "Start with your adaptability and how you embrace new challenges and learning." in
     variation_styles !! 3%nat = Some style3
     ∧ variation_style 3 = Ret style3
     ∧ target_market startup_profile = py "Pakistan"
     ∧ contains (py "Variation #4") (system_prompt startup_profile 3)
     ∧ generate_cv_sections w0 startup_profile 3 =
         (Ret (Some {| sec_text := entrepreneur_text;
                       sec_timestamp := datetime_now w0;
                       sec_designation := [];
                       sec_market := py "Pakistan";
                       sec_aspiration := py "New Start-up (Business)";
                       sec_university := [];
                       sec_variation := 4 |}),
          [Post (groq_request w0
                   (prompt startup_profile 3 (aspiration_guidance startup_profile style3))
                   (system_prompt startup_profile 3)
                   (sample_temperature (random_random w0)))])).
Proof.
  split; [apply contains_system_prompt|]. split.
  - destruct (variation_style_total n) as (s & _ & Hs). exists s.
    split; [exact Hs|]. intros t Ht Hne.
    rewrite (generate_cv_sections_run w data n s Hs).
    destruct (client_call w data n s) as [[[t'|]|e] tr]; simpl in Ht; try discriminate.
    injection Ht as ->. apply truthy_true in Hne. rewrite Hne.
    eexists. split; [reflexivity|]. simpl. auto.
  - cbv zeta. split; [reflexivity|]. split; [reflexivity|].
    split; [vm_compute; reflexivity|]. split.
    + apply (contains_system_prompt startup_profile 3).
    + vm_compute. reflexivity.
Qed.

Lemma variation_number_echoed_witness :
  ∃ sec, (generate_cv_sections (answering_world (completion entrepreneur_text))
            startup_profile 3).1 = Ret (Some sec)
         ∧ sec_text sec = entrepreneur_text
         ∧ sec_variation sec = 4
         ∧ sec_market sec = target_market startup_profile
         ∧ sec_aspiration sec = aspiration startup_profile.
Proof.
  destruct (proj1 (proj2 (variation_number_echoed
              (answering_world (completion entrepreneur_text)) startup_profile 3)))
    as (s & Hs & H).
  apply (H entrepreneur_text).
  - injection Hs as <-. vm_compute. reflexivity.
  - discriminate.
Defined.

Lemma contains_refl (s : str) : contains s s.
Proof. exists [], []. by rewrite app_nil_r. Qed.

Lemma contains_app_l (x a b : str) : contains x a → contains x (a ++ b).
Proof.
  intros (pre & post & ->). exists pre, (post ++ b). by rewrite <- !app_assoc.
Qed.

Lemma contains_app_r (x a b : str) : contains x b → contains x (a ++ b).
Proof.
  intros (pre & post & ->). exists (a ++ pre), post. by rewrite <- !app_assoc.
Qed.

(** The user prompt carries the selected style, through the guidance. *)
Lemma prompt_contains_style (data : gmap str str) (n : Z) (s : str) :
  contains s (prompt data n (aspiration_guidance data s)).
Proof.
  unfold prompt. do 9 apply contains_app_r. apply contains_app_l.
  unfold aspiration_guidance. do 2 apply contains_app_r. apply contains_refl.
Qed.

Lemma generate_with_groq_posts (w : world) (prompt system_prompt : str) (temp : float) :
  GROQ_API_KEY w ≠ [] →
  filter is_post (generate_with_groq w prompt system_prompt temp).2 =
    [Post (groq_request w prompt system_prompt temp)].
Proof.
  intros Hkey. rewrite generate_with_groq_run by exact Hkey. cbv zeta.
  destruct (attempt _) as [f|t]; [destruct f|]; reflexivity.
Qed.

Lemma generate_cv_sections_posts (w : world) (data : gmap str str) (n : Z) (s : str) :
  variation_style n = Ret s →
  GROQ_API_KEY w ≠ [] →
  filter is_post (generate_cv_sections w data n).2 =
    [Post (groq_request w (prompt data n (aspiration_guidance data s))
             (system_prompt data n) (sample_temperature (random_random w)))].
Proof.
  intros Hs Hkey. rewrite (generate_cv_sections_run w data n s Hs).
  pose proof (generate_with_groq_posts w
                (prompt data n (aspiration_guidance data s))
                (system_prompt data n) (sample_temperature (random_random w)) Hkey)
    as Hposts.
  fold (client_call w data n s) in Hposts.
  destruct (client_call w data n s) as [[[t|]|e] tr]; simpl in *; try exact Hposts.
  destruct (truthy t); exact Hposts.
Qed.

(** C1: the style is entry [n mod 10] of a fixed list of ten distinct
    entries; it depends on the index alone, whatever the profile, the draw
    of the random source or the clock, and it is the style the prompt sent
    to the client carries; two indices less than 10 apart select different
    styles. *)
Theorem variation_style_selection (n : Z) :
  0 ≤ n →
  length variation_styles = 10%nat
  ∧ NoDup variation_styles
  ∧ (∃ s, variation_styles !! Z.to_nat (n `mod` 10) = Some s
          ∧ variation_style n = Ret s
          ∧ ∀ (w : world) (data : gmap str str),
              contains s (prompt data n (aspiration_guidance data s))
              ∧ (GROQ_API_KEY w ≠ [] →
                 filter is_post (generate_cv_sections w data n).2 =
                   [Post (groq_request w (prompt data n (aspiration_guidance data s))
                            (system_prompt data n)
                            (sample_temperature (random_random w)))]))
  ∧ (∀ m, 0 < m - n < 10 → variation_style m ≠ variation_style n).
Proof.
  intros Hn. split; [apply variation_styles_length|].
  split; [apply variation_styles_NoDup|]. split.
  - destruct (variation_style_total n) as (s & Hlook & Hs). exists s.
    split; [exact Hlook|]. split; [exact Hs|]. intros w data.
    split; [apply prompt_contains_style|]. by apply generate_cv_sections_posts.
  - intros m Hm Heq.
    destruct (variation_style_total n) as (sn & Hln & Hsn).
    destruct (variation_style_total m) as (sm & Hlm & Hsm).
    rewrite Hsn, Hsm in Heq. injection Heq as ->.
    pose proof (NoDup_lookup _ _ _ _ variation_styles_NoDup Hln Hlm) as Hidx.
    pose proof (Z.mod_pos_bound n 10 eq_refl).
    pose proof (Z.mod_pos_bound m 10 eq_refl).
    pose proof (Z.div_mod n 10). pose proof (Z.div_mod m 10).
    assert (n `mod` 10 = m `mod` 10) by lia. lia.
Qed.

Lemma variation_style_selection_witness :
  variation_style 4 ≠ variation_style 3.
Proof.
  assert (H3 : 0 ≤ 3) by lia.
  apply (proj2 (proj2 (proj2 (variation_style_selection 3 H3))) 4). lia.
Defined.

(** ** The submit handler *)

Lemma generate_with_groq_no_raise (w : world) (prompt system_prompt : str)
    (temp : float) (e : exn) :
  (generate_with_groq w prompt system_prompt temp).1 ≠ Raise e.
Proof.
  destruct (decide (GROQ_API_KEY w = [])) as [Hkey|Hkey].
  - rewrite generate_with_groq_no_key by exact Hkey. discriminate.
  - rewrite generate_with_groq_run by exact Hkey. cbv zeta.
    destruct (attempt _); discriminate.
Qed.

Lemma generate_cv_sections_no_raise (w : world) (data : gmap str str) (n : Z) (e : exn) :
  (generate_cv_sections w data n).1 ≠ Raise e.
Proof.
  destruct (variation_style_total n) as (s & _ & Hs).
  rewrite (generate_cv_sections_run w data n s Hs).
  pose proof (generate_with_groq_no_raise w
                (prompt data n (aspiration_guidance data s))
                (system_prompt data n) (sample_temperature (random_random w))) as H.
  fold (client_call w data n s) in H.
  destruct (client_call w data n s) as [[[t|]|e'] tr]; simpl in *.
  - destruct (truthy t); discriminate.
  - discriminate.
  - destruct (H e' eq_refl).
Qed.

(** No failure class of the client shows the validation message. *)
Lemma msg_required_not_surfaced (f : failure) : StError msg_required ∉ surfaced f.
Proof.
  destruct f; simpl; rewrite ?elem_of_cons, elem_of_nil;
    intros H; repeat (destruct H as [H|H]); try contradiction;
    unfold msg_required, msg_key_missing, msg_timed_out, msg_cannot_connect,
      msg_error_generating in H;
    vm_compute in H; discriminate H.
Qed.

Lemma msg_required_not_from_client (w : world) (prompt system_prompt : str)
    (temp : float) :
  StError msg_required ∉ (generate_with_groq w prompt system_prompt temp).2.
Proof.
  destruct (decide (GROQ_API_KEY w = [])) as [Hkey|Hkey].
  - rewrite generate_with_groq_no_key by exact Hkey. apply msg_required_not_surfaced.
  - rewrite generate_with_groq_run by exact Hkey. cbv zeta.
    destruct (attempt _) as [f|t]; simpl.
    + rewrite elem_of_cons. intros [H|H]; [discriminate H|].
      by apply msg_required_not_surfaced in H.
    + rewrite elem_of_cons, elem_of_nil. intros [H|H]; [discriminate H | exact H].
Qed.

(** C7: a submit with empty achievements shows the validation message and
    nothing else: the session is unchanged, no network call is made, and
    the message is none of those the completion client shows. *)
Theorem empty_achievements_blocked (w : world) (v : Widgets.t) (s : session) :
  Widgets.achievements v = [] →
  on_submit w v s = (s, (Ret tt, [StError msg_required]))
  ∧ network_calls (on_submit w v s).2.2 = 0%nat
  ∧ (∀ f, StError msg_required ∉ surfaced f)
  ∧ (∀ w' prompt system_prompt temp,
       StError msg_required ∉ (generate_with_groq w' prompt system_prompt temp).2).
Proof.
  intros Hempty.
  assert (E : on_submit w v s = (s, (Ret tt, [StError msg_required]))).
  { unfold on_submit. rewrite Hempty. reflexivity. }
  split; [exact E|]. split; [rewrite E; reflexivity|].
  split; [apply msg_required_not_surfaced | apply msg_required_not_from_client].
Qed.

Lemma empty_achievements_blocked_witness :
  network_calls
    (on_submit (answering_world (completion entrepreneur_text)) (sample_widgets [])
       initial_session).2.2 = 0%nat.
Proof.
  exact (proj1 (proj2 (empty_achievements_blocked
           (answering_world (completion entrepreneur_text)) (sample_widgets [])
           initial_session eq_refl))).
Defined.

Lemma make_form_data_aspiration (v : Widgets.t) :
  make_form_data v !! py "aspiration" = Some (Widgets.aspiration v).
Proof. destruct v. vm_compute. reflexivity. Qed.

(** The first test of [form_changed] adds nothing to the second. *)
Lemma form_changed_iff (v : Widgets.t) (s : session) :
  negb (bool_decide (form_data s !! py "aspiration" = Some (Widgets.aspiration v)))
  || negb (bool_decide (form_data s = make_form_data v))
  = negb (bool_decide (form_data s = make_form_data v)).
Proof.
  destruct (decide (form_data s = make_form_data v)) as [E|NE].
  - rewrite (bool_decide_eq_true_2 _ E).
    rewrite bool_decide_eq_true_2; [reflexivity|].
    rewrite E. apply make_form_data_aspiration.
  - rewrite (bool_decide_eq_false_2 _ NE). apply orb_true_r.
Qed.

Lemma on_submit_run (w : world) (v : Widgets.t) (s : session) :
  Widgets.achievements v ≠ [] →
  on_submit w v s =
    let data := make_form_data v in
    let count := counter_at_submit v s in
    match generate_cv_sections w data count with
    | (Ret (Some sec), t) => (Session (Some sec) data (count + 1), (Ret tt, t ++ [Rerun]))
    | (Ret None, t) => (Session (generated_section s) data count, (Ret tt, t))
    | (Raise e, t) => (Session (generated_section s) data count, (Raise e, t))
    end.
Proof.
  intros Hne. apply truthy_true in Hne.
  unfold on_submit, counter_at_submit. rewrite Hne. simpl negb. cbv iota zeta.
  rewrite form_changed_iff.
  destruct (bool_decide (form_data s = make_form_data v)); reflexivity.
Qed.

(** C9: a submit that passes validation stores the submitted dictionary and
    resets the counter to zero exactly when that dictionary differs, as a
    map, from the stored one; then, and in a regeneration alike, the
    counter grows by one when the generation returns a record and stays as
    it is when the generation returns [None]. *)
Theorem variation_counter_transitions (w : world) (v : Widgets.t) (s : session) :
  Widgets.achievements v ≠ [] →
  let data := make_form_data v in
  let count := if bool_decide (form_data s = data) then variation_count s else 0 in
  let s' := (on_submit w v s).1 in
  let r' := (on_regenerate w s).1 in
  form_data s' = data
  ∧ match (generate_cv_sections w data count).1 with
    | Ret (Some sec) => variation_count s' = count + 1 ∧ generated_section s' = Some sec
    | Ret None => variation_count s' = count ∧ generated_section s' = generated_section s
    | Raise _ => False
    end
  ∧ form_data r' = form_data s
  ∧ (form_data s = ∅ → r' = s)
  ∧ (form_data s ≠ ∅ →
     match (generate_cv_sections w (form_data s) (variation_count s)).1 with
     | Ret (Some sec) =>
         variation_count r' = variation_count s + 1 ∧ generated_section r' = Some sec
     | Ret None => r' = s
     | Raise _ => False
     end).
Proof.
  intros Hne data count s' r'.
  assert (Hs' : s' = (on_submit w v s).1) by reflexivity.
  rewrite (on_submit_run w v s Hne) in Hs'. cbv zeta in Hs'.
  fold data in Hs'. unfold counter_at_submit in Hs'. fold data count in Hs'.
  pose proof (generate_cv_sections_no_raise w data count) as Hsub.
  pose proof (generate_cv_sections_no_raise w (form_data s) (variation_count s)) as Hreg.
  assert (Hr' : r' = (on_regenerate w s).1) by reflexivity.
  unfold on_regenerate in Hr'. clearbody s' r'.
  split; [|split; [|split; [|split]]].
  - destruct (generate_cv_sections w data count) as [[[sec|]|e] t]; by subst s'.
  - destruct (generate_cv_sections w data count) as [[[sec|]|e] t]; simpl in *;
      subst s'; simpl; auto. by destruct (Hsub e).
  - case_bool_decide; [|by subst r'].
    destruct (generate_cv_sections w (form_data s) (variation_count s))
      as [[[sec|]|e] t]; by subst r'.
  - intros Hempty. rewrite bool_decide_eq_false_2 in Hr'; [exact Hr'|]. by intros [].
  - intros Hfull. rewrite (bool_decide_eq_true_2 _ Hfull) in Hr'.
    destruct (generate_cv_sections w (form_data s) (variation_count s))
      as [[[sec|]|e] t]; simpl in *; subst r'; simpl; auto. by destruct (Hreg e).
Qed.

Lemma variation_counter_transitions_witness :
  variation_count
    (on_submit (answering_world (completion entrepreneur_text))
       (sample_widgets (py "Won X award")) initial_session).1 = 1.
Proof.
  assert (Hne : Widgets.achievements (sample_widgets (py "Won X award")) ≠ [])
    by discriminate.
  pose proof (proj1 (proj2 (variation_counter_transitions
                (answering_world (completion entrepreneur_text))
                (sample_widgets (py "Won X award")) initial_session Hne))) as H.
  vm_compute in H. destruct H as [H _]. vm_compute. exact H.
Defined.

(** ** Binary64 arithmetic of the temperature

    The operations on [float] are specified by [SpecFloat]: a finite
    value is a mantissa and an exponent, and every operation rounds the
    exact result to 53 bits, ties to even. *)

Lemma digits2_pos_bounds (p : positive) :
  2 ^ (Zpos (digits2_pos p) - 1) ≤ Zpos p < 2 ^ Zpos (digits2_pos p).
Proof.
  induction p as [p IH|p IH|]; simpl digits2_pos.
  - rewrite Pos2Z.inj_succ. change (Zpos p~1) with (2 * Zpos p + 1).
    replace (Z.succ (Zpos (digits2_pos p)) - 1) with (Z.succ (Zpos (digits2_pos p) - 1)) by lia.
    rewrite !Z.pow_succ_r by lia.
    destruct IH as [IH1 IH2]. revert IH1 IH2.
    generalize (2 ^ (Zpos (digits2_pos p) - 1)) (2 ^ Zpos (digits2_pos p)). lia.
  - rewrite Pos2Z.inj_succ. change (Zpos p~0) with (2 * Zpos p).
    replace (Z.succ (Zpos (digits2_pos p)) - 1) with (Z.succ (Zpos (digits2_pos p) - 1)) by lia.
    rewrite !Z.pow_succ_r by lia.
    destruct IH as [IH1 IH2]. revert IH1 IH2.
    generalize (2 ^ (Zpos (digits2_pos p) - 1)) (2 ^ Zpos (digits2_pos p)). lia.
  - simpl. lia.
Qed.

Lemma digits2_pos_unique (p : positive) (k : Z) :
  2 ^ (k - 1) ≤ Zpos p < 2 ^ k → Zpos (digits2_pos p) = k.
Proof.
  intros [Hlo Hhi]. pose proof (digits2_pos_bounds p) as [Dlo Dhi].
  assert (0 < k).
  { destruct (Z.lt_trichotomy 0 k) as [?|[<-|Hk]]; [done|simpl in Hhi; lia|].
    rewrite (Z.pow_neg_r 2 k) in Hhi by lia. lia. }
  assert (Zpos (digits2_pos p) - 1 < k).
  { apply (Z.pow_lt_mono_r_iff 2); lia. }
  assert (k - 1 < Zpos (digits2_pos p)).
  { apply (Z.pow_lt_mono_r_iff 2); lia. }
  lia.
Qed.

Lemma shr_1_m (r : shr_record) : 0 ≤ shr_m r → shr_m (shr_1 r) = shr_m r / 2.
Proof.
  destruct r as [m r s]. simpl. intros Hm.
  destruct m as [|[p|p|]|p]; simpl shr_m.
  - reflexivity.
  - change (Zpos p~1) with (2 * Zpos p + 1). apply (Z.div_unique _ _ _ 1); lia.
  - change (Zpos p~0) with (2 * Zpos p). apply (Z.div_unique _ _ _ 0); lia.
  - reflexivity.
  - lia.
Qed.

Lemma iter_shr_1_m (p : positive) (r : shr_record) :
  0 ≤ shr_m r → shr_m (SpecFloat.iter_pos shr_1 p r) = shr_m r / 2 ^ Zpos p.
Proof.
  revert r. induction p as [p IH|p IH|]; intros r Hr; simpl SpecFloat.iter_pos.
  - assert (Hpow : 0 < 2 ^ Zpos p) by (apply Z.pow_pos_nonneg; lia).
    assert (H1 : 0 ≤ shr_m (shr_1 r)) by (rewrite shr_1_m by done; apply Z.div_pos; lia).
    assert (H2 : 0 ≤ shr_m (SpecFloat.iter_pos shr_1 p (shr_1 r)))
      by (rewrite IH by done; apply Z.div_pos; lia).
    rewrite IH, IH, shr_1_m by done.
    rewrite !Z.div_div by lia. f_equal.
    change (Zpos p~1) with (2 * Zpos p + 1).
    rewrite Z.pow_add_r, Z.pow_mul_r, Z.pow_2_r by lia.
    change (2 ^ 1) with 2. change (2 * 2) with 4.
    replace (4 ^ Zpos p) with (2 ^ Zpos p * 2 ^ Zpos p); [lia|].
    rewrite <- Z.pow_mul_l. reflexivity.
  - assert (Hpow : 0 < 2 ^ Zpos p) by (apply Z.pow_pos_nonneg; lia).
    assert (H2 : 0 ≤ shr_m (SpecFloat.iter_pos shr_1 p r))
      by (rewrite IH by done; apply Z.div_pos; lia).
    rewrite IH, IH by done.
    rewrite !Z.div_div by lia. f_equal.
    change (Zpos p~0) with (2 * Zpos p).
    rewrite Z.pow_mul_r, Z.pow_2_r by lia. change (2 * 2) with 4.
    rewrite <- Z.pow_mul_l. reflexivity.
  - by apply shr_1_m.
Qed.

Lemma round_nearest_even_bounds (m : Z) (l : location) :
  m ≤ round_nearest_even m l ≤ m + 1.
Proof. destruct l as [|[]]; simpl; try destruct (Z.even m); lia. Qed.

Lemma fexp_binary64 (e : Z) : fexp prec emax e = Z.max (e - 53) (-1074).
Proof. reflexivity. Qed.

(** Rounding a positive mantissa that has [n] bits too many keeps the
    quotient by [2^n] or its successor. *)
Lemma binary_round_aux_shift (P n : positive) (E : Z) :
  fexp prec emax (Zpos (digits2_pos P) + E) - E = Zpos n →
  ∃ M, Zpos P / 2 ^ Zpos n ≤ M ≤ Zpos P / 2 ^ Zpos n + 1
       ∧ binary_round_aux prec emax false (Zpos P) E loc_Exact
         = round_finish M (E + Zpos n).
Proof.
  intros Hn. unfold binary_round_aux. unfold shr_fexp at 1.
  simpl Zdigits2. rewrite Hn. unfold shr at 1. cbv iota beta.
  eexists. split; [|reflexivity].
  rewrite (iter_shr_1_m n (shr_record_of_loc (Zpos P) loc_Exact)) by (simpl; lia).
  apply round_nearest_even_bounds.
Qed.

Lemma round_finish_zero (e : Z) : round_finish 0 e = S754_zero false.
Proof.
  unfold round_finish, shr_fexp, shr. simpl Zdigits2.
  destruct (fexp prec emax (0 + e) - e) as [|n|n]; try reflexivity.
  rewrite (iter_shr_1_m n (shr_record_of_loc 0 loc_Exact)) by (simpl; lia).
  reflexivity.
Qed.

Lemma round_finish_fits (m : positive) (e : Z) :
  Zpos m < 2 ^ 53 → -1074 ≤ e ≤ 971 →
  round_finish (Zpos m) e = S754_finite false m e.
Proof.
  intros Hm He. unfold round_finish, shr_fexp, shr. simpl Zdigits2.
  rewrite fexp_binary64.
  assert (Hd : Zpos (digits2_pos m) ≤ 53).
  { pose proof (digits2_pos_bounds m) as [Hlo _].
    assert (Zpos (digits2_pos m) - 1 < 53); [|lia].
    apply (Z.pow_lt_mono_r_iff 2); lia. }
  destruct (Z.max (Zpos (digits2_pos m) + e - 53) (-1074) - e) as [|n|n] eqn:Hn;
    [| lia |]; simpl shr_m; cbv iota;
    (replace (e <=? emax - prec) with true; [reflexivity|]);
    symmetry; apply Z.leb_le; unfold emax, prec; lia.
Qed.

Lemma round_finish_carry (e : Z) :
  -1074 ≤ e ≤ 970 →
  round_finish 9007199254740992 e = S754_finite false 4503599627370496 (e + 1).
Proof.
  intros He. unfold round_finish, shr_fexp, shr.
  change (Zdigits2 9007199254740992) with 54. rewrite fexp_binary64.
  replace (Z.max (54 + e - 53) (-1074) - e) with 1 by lia.
  cbv [SpecFloat.iter_pos shr_1 shr_record_of_loc shr_m orb].
  replace (e + 1 <=? emax - prec) with true; [reflexivity|].
  symmetry; apply Z.leb_le; unfold emax, prec; lia.
Qed.

Lemma Prim2SF_015 : Prim2SF 0.15 = S754_finite false m15 (-55).
Proof. reflexivity. Qed.

Lemma Prim2SF_085 : Prim2SF 0.85 = S754_finite false m85 (-53).
Proof. reflexivity. Qed.

Lemma Prim2SF_1 : Prim2SF 1 = S754_finite false 4503599627370496 (-52).
Proof. reflexivity. Qed.

Lemma Prim2SF_0 : Prim2SF 0 = S754_zero false.
Proof. reflexivity. Qed.

Lemma pow2_pos (k : Z) : 0 ≤ k → 0 < 2 ^ k.
Proof. intros. apply Z.pow_pos_nonneg; lia. Qed.

Lemma pow2_le (a b : Z) : a ≤ b → 0 ≤ a → 2 ^ a ≤ 2 ^ b.
Proof. intros. apply Z.pow_le_mono_r; lia. Qed.

Lemma pow2_lt_inv (a b : Z) : 2 ^ a < 2 ^ b → 0 ≤ b → a < b.
Proof. intros H Hb. apply (Z.pow_lt_mono_r_iff 2); lia. Qed.

Lemma product_at_most_015 (m : positive) (e : Z) :
  canonical_mantissa prec emax m e = true →
  e ≤ -53 →
  at_most_015 (SF64mul (S754_finite false m e) (S754_finite false m15 (-55))).
Proof.
  intros Hcanon He.
  unfold canonical_mantissa in Hcanon. apply Z.eqb_eq in Hcanon.
  rewrite fexp_binary64 in Hcanon.
  unfold SF64mul, SFmul. simpl xorb.
  pose proof (digits2_pos_bounds m) as [Hmlo Hmhi].
  pose proof (digits2_pos_bounds (m * m15)) as [HPlo HPhi].
  set (dm := Zpos (digits2_pos m)) in *.
  set (dP := Zpos (digits2_pos (m * m15))) in *.
  assert (Hdm : 1 ≤ dm) by (unfold dm; lia).
  assert (HdP1 : 1 ≤ dP) by (unfold dP; lia).
  assert (HP : Zpos (m * m15) = Zpos m * Zpos m15) by reflexivity.
  assert (Hm53 : Zpos m < 2 ^ 53).
  { apply Z.lt_le_trans with (2 ^ dm); [exact Hmhi|]. apply pow2_le; lia. }
  (* the product has 52 or 53 bits more than [m] *)
  assert (HdP : dm + 52 ≤ dP ≤ dm + 53).
  { split.
    - assert (dm + 51 < dP); [|lia]. apply pow2_lt_inv; [|lia].
      apply Z.le_lt_trans with (Zpos (m * m15)); [|exact HPhi].
      replace (dm + 51) with ((dm - 1) + 52) by lia.
      rewrite Z.pow_add_r by lia. rewrite HP.
      pose proof (pow2_pos (dm - 1)). change (2 ^ 52) with 4503599627370496.
      unfold m15. lia.
    - assert (dP - 1 < dm + 53); [|lia]. apply pow2_lt_inv; [|lia].
      apply Z.le_lt_trans with (Zpos (m * m15)); [exact HPlo|].
      rewrite Z.pow_add_r by lia. rewrite HP.
      pose proof (pow2_pos dm). change (2 ^ 53) with 9007199254740992.
      unfold m15. lia. }
  set (e' := fexp prec emax (dP + (e + -55))).
  assert (He' : e' = Z.max (dP + (e + -55) - 53) (-1074)) by apply fexp_binary64.
  destruct (e' - (e + -55)) as [|n|n] eqn:Hn; [lia| |lia].
  destruct (binary_round_aux_shift (m * m15) n (e + -55)) as (M & [HMlo HMhi] & ->).
  { exact Hn. }
  replace (e + -55 + Zpos n) with e' by lia.
  assert (Hpn : 0 < 2 ^ Zpos n) by (apply pow2_pos; lia).
  assert (Hq0 : 0 ≤ Zpos (m * m15) / 2 ^ Zpos n) by (apply Z.div_pos; lia).
  assert (Hq53 : Zpos (m * m15) / 2 ^ Zpos n < 2 ^ 53).
  { apply Z.div_lt_upper_bound; [exact Hpn|].
    rewrite <- Z.pow_add_r by lia.
    apply Z.lt_le_trans with (2 ^ dP); [exact HPhi|]. apply pow2_le; lia. }
  assert (Htop : e' = -55 → M ≤ Zpos m15).
  { intros E55. assert (Hn53 : Zpos n = 53) by lia. rewrite Hn53 in HMhi.
    assert (Zpos (m * m15) / 2 ^ 53 < Zpos m15); [|lia].
    apply Z.div_lt_upper_bound; [lia|]. rewrite HP.
    change (2 ^ 53) with 9007199254740992 in *. unfold m15. lia. }
  change (2 ^ 53) with 9007199254740992 in *.
  destruct (Z.eq_dec M 0) as [->|HM0]; [by rewrite round_finish_zero|].
  destruct (Z.eq_dec M 9007199254740992) as [->|HM53].
  - rewrite round_finish_carry by lia. simpl.
    assert (e' ≠ -55) by (intros E55; apply Htop in E55; unfold m15 in E55; lia).
    split; [lia|]. split; [lia|]. intros _. unfold m15. lia.
  - destruct M as [|mq|mq]; [lia| |lia].
    rewrite round_finish_fits by (change (2 ^ 53) with 9007199254740992; lia).
    simpl. split; [lia|]. split; [lia|]. exact Htop.
Qed.

Lemma pos_iter_xO (p d : positive) : Zpos (Pos.iter xO p d) = Zpos p * 2 ^ Zpos d.
Proof.
  induction d as [|d IH] using Pos.peano_ind.
  - simpl. lia.
  - rewrite Pos.iter_succ, Pos2Z.inj_succ, Z.pow_succ_r by lia.
    change (Zpos (Pos.iter xO p d)~0) with (2 * Zpos (Pos.iter xO p d)). lia.
Qed.

Lemma SFleb_same_exponent (m1 m2 : positive) (e : Z) :
  Zpos m1 ≤ Zpos m2 →
  SFleb (S754_finite false m1 e) (S754_finite false m2 e) = true.
Proof.
  intros Hm. unfold SFleb, SFcompare. rewrite Z.compare_refl.
  change (Pos.compare_cont Eq m1 m2) with (m1 ?= m2)%positive.
  destruct (Pos.compare_spec m1 m2); try reflexivity. lia.
Qed.

(** The sum [0.85 + q] for a smaller positive [q]: the mantissa of [0.85]
    is aligned on the exponent of [q], and the exact sum is rounded. *)
Lemma SFadd_085_aligned (mq d : positive) (eq : Z) :
  eq - -53 = Zneg d →
  SF64add (S754_finite false m85 (-53)) (S754_finite false mq eq)
  = binary_round prec emax false (Pos.iter xO m85 d + mq) eq.
Proof.
  intros Hd. unfold SF64add, SFadd. cbv zeta.
  replace (Z.min (-53) eq) with eq by lia.
  unfold shl_align. rewrite Hd, Z.sub_diag. reflexivity.
Qed.

(** Adding a value of at most [0.15] to [0.85] stays between [0.85] and
    one, both included. *)
Lemma sum_between (q : spec_float) :
  at_most_015 q →
  SFleb (S754_finite false m85 (-53)) (SF64add (S754_finite false m85 (-53)) q) = true
  ∧ SFleb (SF64add (S754_finite false m85 (-53)) q)
          (S754_finite false 4503599627370496 (-52)) = true.
Proof.
  destruct q as [s| | |[] mq eq]; simpl at_most_015; try contradiction.
  { intros _. split; reflexivity. }
  intros (Heq & Hmq & Htop).
  change (2 ^ 53) with 9007199254740992 in Hmq.
  destruct (eq - -53) as [|d|d] eqn:Hd; [lia|lia|].
  rewrite (SFadd_085_aligned mq d eq Hd).
  set (S := (Pos.iter xO m85 d + mq)%positive).
  assert (HS : Zpos S = Zpos m85 * 2 ^ Zpos d + Zpos mq).
  { unfold S. rewrite Pos2Z.inj_add, pos_iter_xO. reflexivity. }
  assert (Hpd : 0 < 2 ^ Zpos d) by (apply pow2_pos; lia).
  assert (Hpd4 : 4 ≤ 2 ^ Zpos d).
  { change 4 with (2 ^ 2). apply pow2_le; lia. }
  assert (Hquot : Zpos S / 2 ^ Zpos d = Zpos m85 + Zpos mq / 2 ^ Zpos d).
  { rewrite HS. apply Z.div_add_l. lia. }
  assert (Hfrac : 0 ≤ Zpos mq / 2 ^ Zpos d) by (apply Z.div_pos; lia).
  (* the quotient stays below 2^53 *)
  assert (Hq53 : Zpos S / 2 ^ Zpos d < 9007199254740992).
  { rewrite Hquot. unfold m85.
    destruct (Z.eq_dec (Zpos d) 2) as [Hd2|Hd2].
    - rewrite Hd2. change (2 ^ 2) with 4.
      assert (Zpos mq ≤ Zpos m15) by (apply Htop; lia).
      assert (Zpos mq / 4 < 1351079888211149); [|lia].
      apply Z.div_lt_upper_bound; [lia|]. unfold m15 in *. lia.
    - assert (Zpos mq / 2 ^ Zpos d < 1125899906842624); [|lia].
      apply Z.div_lt_upper_bound; [lia|].
      assert (8 ≤ 2 ^ Zpos d); [|lia].
      change 8 with (2 ^ 3). apply pow2_le; lia. }
  (* so the sum has exactly [53 + d] bits *)
  assert (Hdig : Zpos (digits2_pos S) = 53 + Zpos d).
  { apply digits2_pos_unique. split.
    - replace (53 + Zpos d - 1) with (52 + Zpos d) by lia.
      rewrite Z.pow_add_r by lia. change (2 ^ 52) with 4503599627370496.
      rewrite HS. unfold m85. nia.
    - rewrite Z.pow_add_r by lia. change (2 ^ 53) with 9007199254740992.
      pose proof (Z.mul_succ_div_gt (Zpos S) (2 ^ Zpos d) Hpd) as Hgt. nia. }
  unfold binary_round, shl_align. rewrite Hdig, fexp_binary64.
  replace (Z.max (53 + Zpos d + eq - 53) (-1074)) with (-53) by lia.
  replace (-53 - eq) with (Zpos d) by lia. cbv iota.
  destruct (binary_round_aux_shift S d eq) as (M & [HMlo HMhi] & ->).
  { rewrite Hdig, fexp_binary64. lia. }
  replace (eq + Zpos d) with (-53) by lia.
  destruct (Z.eq_dec M 9007199254740992) as [->|HM53].
  - rewrite round_finish_carry by lia. split; reflexivity.
  - destruct M as [|mM|mM]; [unfold m85 in *; lia| |lia].
    rewrite round_finish_fits by (change (2 ^ 53) with 9007199254740992; lia).
    split; [apply SFleb_same_exponent; lia | reflexivity].
Qed.

(** For every draw in [[0, 1)] the temperature lies in [[0.85, 1]]. *)
Lemma sample_temperature_range (r : float) :
  (0 <=? r)%float = true → (r <? 1)%float = true →
  (0.85 <=? sample_temperature r)%float = true
  ∧ (sample_temperature r <=? 1)%float = true.
Proof.
  unfold sample_temperature.
  rewrite !leb_spec, ltb_spec, add_spec, mul_spec.
  rewrite Prim2SF_0, Prim2SF_1, Prim2SF_085, Prim2SF_015.
  pose proof (Prim2SF_valid r) as Hvalid.
  destruct (Prim2SF r) as [s|s| |s m e]; intros Hge Hlt.
  - apply sum_between. exact I.
  - destruct s; [discriminate Hge | discriminate Hlt].
  - discriminate Hge.
  - destruct s; [discriminate Hge|].
    change (bounded prec emax m e = true) in Hvalid. unfold bounded in Hvalid.
    apply andb_true_iff in Hvalid as [Hcanon _].
    apply sum_between, product_at_most_015; [exact Hcanon|].
    unfold canonical_mantissa in Hcanon. apply Z.eqb_eq in Hcanon.
    rewrite fexp_binary64 in Hcanon.
    unfold SFltb, SFcompare in Hlt.
    destruct (Z.compare_spec e (-52)) as [->|Hlow|Hhigh]; [|lia|discriminate Hlt].
    rewrite Pos.compare_cont_spec in Hlt.
    destruct (Pos.compare_spec m 4503599627370496) as [?|Hm|?];
      try discriminate Hlt.
    assert (Hd : Zpos (digits2_pos m) = 53) by (clear - Hcanon; lia).
    pose proof (digits2_pos_bounds m) as [Hlo _].
    rewrite Hd in Hlo. change (2 ^ (53 - 1)) with 4503599627370496 in Hlo.
    apply Pos2Z.pos_lt_pos in Hm. clear - Hlo Hm. lia.
Qed.

(** C4 as stated fails at the largest draw: [0.85 + r * 0.15] is then
    halfway between [1 - 2^-53] and [1], and rounds to [1]. *)
Lemma largest_draw_reaches_one :
  (0 <=? largest_draw)%float = true
  ∧ (largest_draw <? 1)%float = true
  ∧ (sample_temperature largest_draw <? 1)%float = false
  ∧ (sample_temperature largest_draw =? 1)%float = true.
Proof. repeat split; reflexivity. Qed.

Lemma posted_temperatures_filter (t : list event) :
  posted_temperatures (filter is_post t) = posted_temperatures t.
Proof.
  induction t as [|ev t IH]; [reflexivity|].
  destruct ev; simpl; rewrite ?filter_cons; simpl; by rewrite ?IH.
Qed.

(** C4, with the interval closed: the temperature sent is
    [0.85 + r * 0.15] for the draw [r] of the call, whatever the variation
    index, and for a draw in [[0, 1)] it lies in [[0.85, 1.0]]. *)
Theorem temperature_closed_range (w : world) (data : gmap str str) :
  (0 <=? random_random w)%float = true →
  (random_random w <? 1)%float = true →
  let t := (0.85 + (random_random w * 0.15))%float in
  (GROQ_API_KEY w ≠ [] →
   ∀ n, posted_temperatures (generate_cv_sections w data n).2 = [Some t])
  ∧ (0.85 <=? t)%float = true
  ∧ (t <=? 1)%float = true.
Proof.
  intros Hge Hlt t. split.
  - intros Hkey n. destruct (variation_style_total n) as (s & _ & Hs).
    rewrite <- posted_temperatures_filter.
    rewrite (generate_cv_sections_posts w data n s Hs Hkey). reflexivity.
  - exact (sample_temperature_range (random_random w) Hge Hlt).
Qed.

Lemma temperature_closed_range_witness :
  posted_temperatures (generate_cv_sections largest_draw_world startup_profile 3).2
  = [Some 1%float].
Proof.
  assert (Hkey : GROQ_API_KEY largest_draw_world ≠ []) by discriminate.
  exact (proj1 (temperature_closed_range largest_draw_world startup_profile
                  eq_refl eq_refl) Hkey 3).
Defined.

(** * Further properties *)

(** ** The connectivity probe *)

Lemma check_groq_connection_run (w : world) :
  GROQ_API_KEY w ≠ [] →
  check_groq_connection w =
    (Ret match requests_post w (probe_request w) with
         | Ret resp =>
             if status_code resp =? 200 then (true, py "Connected")
             else (false, py "Status: " ++ str_of_int (status_code resp)
                          ++ py " - " ++ take 100 (text resp))
         | Raise e =>
             if isinstance_Timeout e then (false, py "Connection timeout")
             else if isinstance_ConnectionError e then (false, py "Connection error")
             else (false, py "Error: " ++ exn_str e)
         end,
     [Post (probe_request w)]).
Proof.
  intros Hkey. apply truthy_true in Hkey.
  unfold check_groq_connection. rewrite Hkey. simpl negb. cbv iota.
  fold (probe_request w).
  unfold post, try_except, bind, emit, lift.
  destruct (requests_post w (probe_request w)) as [resp|e].
  - destruct (status_code resp =? 200); reflexivity.
  - destruct (isinstance_Timeout e); [reflexivity|].
    destruct (isinstance_ConnectionError e); reflexivity.
Qed.

(** X1: the probe never raises and shows nothing itself; it makes no
    network call without a key and exactly one with a key; it answers
    [True] exactly when the key is present and the endpoint answered 200,
    and then the message is "Connected". *)
Theorem probe_connected_iff_200 (w : world) :
  ∃ ok msg,
    (check_groq_connection w).1 = Ret (ok, msg)
    ∧ (check_groq_connection w).2
      = (if truthy (GROQ_API_KEY w) then [Post (probe_request w)] else [])
    ∧ (ok = true ↔
       GROQ_API_KEY w ≠ []
       ∧ ∃ resp, requests_post w (probe_request w) = Ret resp ∧ status_code resp = 200)
    ∧ (ok = true → msg = py "Connected").
Proof.
  destruct (decide (GROQ_API_KEY w = [])) as [Hkey|Hkey].
  - unfold check_groq_connection. rewrite Hkey. simpl.
    eexists _, _. split; [reflexivity|]. split; [reflexivity|].
    split; [|discriminate]. split; [discriminate|]. by intros [? _].
  - rewrite (check_groq_connection_run w Hkey).
    rewrite (proj2 (truthy_true _) Hkey). simpl.
    destruct (requests_post w (probe_request w)) as [resp|e].
    + destruct (Z.eqb_spec (status_code resp) 200) as [E|NE].
      * eexists _, _. split; [reflexivity|]. split; [reflexivity|].
        split; [|done]. split; [|done]. intros _. split; [done|]. by exists resp.
      * eexists _, _. split; [reflexivity|]. split; [reflexivity|].
        split; [|discriminate]. split; [discriminate|].
        intros (_ & resp' & [= <-] & E). contradiction.
    + assert (Hno : ¬ (GROQ_API_KEY w ≠ []
                      ∧ ∃ resp, @Raise response e = Ret resp ∧ status_code resp = 200)).
      { intros (_ & resp' & [=] & _). }
      destruct (isinstance_Timeout e); [|destruct (isinstance_ConnectionError e)];
        (eexists _, _; split; [reflexivity|]; split; [reflexivity|];
         split; [|discriminate]; split; [discriminate|]; intros H; by destruct Hno).
Qed.

(** X2: on an answer other than 200 the probe reports the status followed
    by the first 100 characters of the body: the whole body when it has at
    most 100 characters, never more than 100. *)
Theorem probe_status_snippet (w : world) (resp : response) :
  GROQ_API_KEY w ≠ [] →
  requests_post w (probe_request w) = Ret resp →
  status_code resp ≠ 200 →
  ∃ snippet,
    check_groq_connection w =
      (Ret (false, py "Status: " ++ str_of_int (status_code resp) ++ py " - " ++ snippet),
       [Post (probe_request w)])
    ∧ snippet `prefix_of` text resp
    ∧ length snippet = (length (text resp) `min` 100)%nat
    ∧ ((length (text resp) ≤ 100)%nat → snippet = text resp).
Proof.
  intros Hkey Hpost Hstatus. rewrite (check_groq_connection_run w Hkey), Hpost.
  apply Z.eqb_neq in Hstatus. rewrite Hstatus.
  exists (take 100 (text resp)). split; [reflexivity|].
  split; [apply prefix_take|]. split; [rewrite length_take; lia|].
  intros Hlen. by apply take_ge.
Qed.

Lemma probe_status_snippet_witness :
  check_groq_connection throttled_world =
    (Ret (false, py "Status: 429 - Rate limit reached"), [Post (probe_request throttled_world)]).
Proof.
  destruct (probe_status_snippet throttled_world
              (Response 429 (py "Rate limit reached") (Ret JNone)))
    as (snippet & Hrun & _ & _ & Hshort); [discriminate|reflexivity|discriminate|].
  rewrite Hrun, Hshort; [reflexivity|]. vm_compute. lia.
Defined.

(** ** What the client returns *)

Lemma lstrip_decompose (s : str) :
  ∃ pre, s = pre ++ lstrip s ∧ Forall (λ c, isspace c = true) pre.
Proof.
  induction s as [|c s (pre & Hs & Hpre)]; [by exists []|]. simpl.
  destruct (isspace c) eqn:Hc.
  - exists (c :: pre). split; [by rewrite Hs at 1|]. by constructor.
  - by exists [].
Qed.

(** Stripping removes whitespace at both ends and nothing else. *)
Lemma strip_decompose (s : str) :
  ∃ pre post,
    s = pre ++ strip s ++ post
    ∧ Forall (λ c, isspace c = true) pre
    ∧ Forall (λ c, isspace c = true) post.
Proof.
  destruct (lstrip_decompose s) as (pre & Hs & Hpre).
  destruct (lstrip_decompose (reverse (lstrip s))) as (tsop & Hr & Hpost).
  exists pre, (reverse tsop). split; [|split; [exact Hpre|]].
  - unfold strip, rstrip. rewrite <- reverse_app, <- Hr, reverse_involutive. exact Hs.
  - by apply Forall_reverse.
Qed.

Lemma strip_head (s : str) (c : N) : head (strip s) = Some c → isspace c = false.
Proof.
  unfold strip. intros Hc.
  destruct (lstrip_head s) as [E|(c' & s' & E & Hc')].
  { rewrite E in Hc. discriminate Hc. }
  unfold rstrip in Hc. rewrite E in Hc.
  destruct (lstrip_head (reverse (c' :: s'))) as [E'|(d & u & E' & Hd)].
  { rewrite E' in Hc. discriminate Hc. }
  destruct (lstrip_decompose (reverse (c' :: s'))) as (pre & Hdec & Hpre).
  rewrite E' in Hc, Hdec.
  (* [c' :: s'] is the reverse of [pre ++ d :: u]: it starts with the last
     element of [d :: u], or with [d] itself *)
  apply (f_equal reverse) in Hdec. rewrite reverse_involutive in Hdec.
  rewrite reverse_app, reverse_cons in Hdec.
  rewrite reverse_cons in Hc.
  destruct (reverse u) as [|x xs] eqn:Hu; simpl in *.
  - injection Hc as <-. exact Hd.
  - injection Hc as <-. injection Hdec as -> _. exact Hc'.
Qed.

Lemma strip_last (s : str) (c : N) : last (strip s) = Some c → isspace c = false.
Proof.
  unfold strip, rstrip. rewrite last_reverse. intros Hc.
  destruct (lstrip_head (reverse (lstrip s))) as [E|(d & u & E & Hd)].
  - rewrite E in Hc. discriminate Hc.
  - rewrite E in Hc. by injection Hc as <-.
Qed.

(** X3: a text the completion client returns neither starts nor ends with
    whitespace. *)
Theorem client_text_is_trimmed (w : world) (prompt system_prompt : str)
    (temp : float) (t : str) :
  (generate_with_groq w prompt system_prompt temp).1 = Ret (Some t) →
  (∀ c, head t = Some c → isspace c = false)
  ∧ (∀ c, last t = Some c → isspace c = false).
Proof.
  intros Ht. destruct (generate_with_groq_stripped _ _ _ _ _ Ht) as [s ->].
  split; intros c; [apply strip_head | apply strip_last].
Qed.

Lemma client_text_is_trimmed_witness :
  head (py "Hello.") = Some 72%N ∧ isspace 72 = false.
Proof.
  split; [reflexivity|].
  exact (proj1 (client_text_is_trimmed
                  (answering_world (completion (py "  Hello. "))) (py "p") (py "s")
                  0.9%float (py "Hello.") eq_refl) 72%N eq_refl).
Defined.

(** X4: when the first choice carries a content, the text returned is that
    content with whitespace removed at both ends and nothing else: the
    content is the text between two runs of whitespace. *)
Theorem client_text_keeps_inner_content
    (w : world) (prompt system_prompt : str) (temp : float)
    (resp : response) (d c m : gmap str json) (rest : list json) (s : str) :
  GROQ_API_KEY w ≠ [] →
  requests_post w (groq_request w prompt system_prompt temp) = Ret resp →
  status_code resp = 200 →
  json_body resp = Ret (JDict d) →
  d !! py "choices" = Some (JList (JDict c :: rest)) →
  c !! py "message" = Some (JDict m) →
  m !! py "content" = Some (JStr s) →
  ∃ t pre post,
    (generate_with_groq w prompt system_prompt temp).1 = Ret (Some t)
    ∧ s = pre ++ t ++ post
    ∧ Forall (λ c, isspace c = true) pre
    ∧ Forall (λ c, isspace c = true) post.
Proof.
  intros Hkey Hpost Hstatus Hbody Hc Hm Hs.
  destruct (strip_decompose s) as (pre & post & Hdec & Hpre & Hpost').
  exists (strip s), pre, post. split; [|done].
  by rewrite (content_present w prompt system_prompt temp resp d Hkey Hpost Hstatus
                Hbody c m rest s Hc Hm Hs).
Qed.

Lemma client_text_keeps_inner_content_witness :
  ∃ t pre post,
    (generate_with_groq (answering_world (completion (py "  Hello. "))) (py "p")
       (py "s") 0.9%float).1 = Ret (Some t)
    ∧ py "  Hello. " = pre ++ t ++ post
    ∧ Forall (λ c, isspace c = true) pre
    ∧ Forall (λ c, isspace c = true) post.
Proof.
  refine (client_text_keeps_inner_content
            (answering_world (completion (py "  Hello. "))) (py "p") (py "s") 0.9%float
            (Response 200 [] (Ret (completion (py "  Hello. ")))) _ _ _ [] (py "  Hello. ")
            _ _ _ _ _ _ _);
    first [discriminate | reflexivity].
Defined.

(** ** The prompts *)

Lemma py_inj (s s' : string) : py s = py s' → s = s'.
Proof.
  unfold py. intros H.
  rewrite <- (string_of_list_ascii_of_string s), <- (string_of_list_ascii_of_string s').
  f_equal. revert H.
  generalize (list_ascii_of_string s) (list_ascii_of_string s').
  induction l as [|a l IH]; intros [|a' l'] H; try discriminate H; [reflexivity|].
  injection H as Ha Hl. f_equal; [|by apply IH].
  by rewrite <- (ascii_N_embedding a), <- (ascii_N_embedding a'), Ha.
Qed.

Lemma str_of_int_inj (i j : Z) : str_of_int i = str_of_int j → i = j.
Proof. intros H. apply py_inj in H. by apply (inj pretty) in H. Qed.

(** X5: for one profile, two different variation numbers never give the
    same system prompt. *)
Theorem system_prompt_tells_variations_apart (data : gmap str str) (n m : Z) :
  system_prompt data n = system_prompt data m → n = m.
Proof.
  rewrite !system_prompt_variation. intros H.
  apply app_inv_head, app_inv_tail, app_inv_head, str_of_int_inj in H. lia.
Qed.

Lemma system_prompt_tells_variations_apart_witness :
  system_prompt startup_profile 3 ≠ system_prompt startup_profile 13.
Proof.
  intros H. by apply system_prompt_tells_variations_apart in H.
Defined.

Lemma contains_trans (a b c : str) : contains a b → contains b c → contains a c.
Proof.
  intros (p & q & ->) (p' & q' & ->). exists (p' ++ p), (q ++ q').
  by rewrite <- !app_assoc.
Qed.

(** A value between the end of one literal and the start of the next. *)
Lemma contains_labelled (lab x l r rest : str) :
  drop (length l - length lab) l = lab →
  take 1 r = nl →
  contains (lab ++ x ++ nl) (l ++ x ++ r ++ rest).
Proof.
  intros Hl Hr.
  exists (take (length l - length lab) l), (drop 1 r ++ rest).
  rewrite <- (take_drop (length l - length lab) l) at 1.
  rewrite <- (take_drop 1 r) at 1. rewrite Hl, Hr.
  by rewrite <- !app_assoc.
Qed.

Ltac find_labelled :=
  first [ apply contains_labelled; [reflexivity | reflexivity]
        | apply contains_app_r; find_labelled ].

(** X6: the user prompt has one labelled line for each of the 22 keys of
    the profile; the line ends after the value, and a missing key renders
    as the placeholder of the source ("N/A" or nothing). *)
Theorem prompt_renders_every_field (data : gmap str str) (n : Z) (guidance : str)
    (label key : string) (placeholder : str) :
  (label, key, placeholder) ∈ prompt_fields →
  contains (py label ++ default placeholder (data !! py key) ++ nl)
           (prompt data n guidance).
Proof.
  revert label key placeholder.
  assert (H : Forall (λ e : string * string * str,
                        contains (py e.1.1 ++ get data e.1.2 e.2 ++ nl)
                                 (prompt data n guidance)) prompt_fields).
  { unfold prompt_fields, prompt.
    repeat (apply Forall_cons; split; [cbn [fst snd]; find_labelled|]).
    apply Forall_nil. exact I. }
  intros label key placeholder Hin.
  rewrite Forall_forall in H. exact (H _ Hin).
Qed.

Lemma prompt_renders_every_field_witness :
  contains (py "University: N/A" ++ nl) (prompt ∅ 0 []).
Proof.
  assert (Hin : ("University: ", "university", py "N/A") ∈ prompt_fields).
  { unfold prompt_fields. apply list_elem_of_further, list_elem_of_here. }
  pose proof (prompt_renders_every_field ∅ 0 [] _ _ _ Hin) as H.
  rewrite lookup_empty in H. exact H.
Defined.

(** X7: whatever the profile holds under one of the 22 keys reaches the
    user prompt. *)
Theorem prompt_carries_every_value (data : gmap str str) (n : Z) (guidance : str)
    (key : string) (x : str) :
  key ∈ form_keys →
  data !! py key = Some x →
  contains x (prompt data n guidance).
Proof.
  intros Hkey Hx. unfold form_keys in Hkey.
  apply list_elem_of_fmap in Hkey as ([[label key'] placeholder] & -> & Hin).
  pose proof (prompt_renders_every_field data n guidance _ _ _ Hin) as H.
  simpl in Hx. rewrite Hx in H. simpl in H.
  refine (contains_trans _ _ _ _ H).
  apply contains_app_r, contains_app_l, contains_refl.
Qed.

Lemma prompt_carries_every_value_witness :
  contains (py "Won X award") (prompt startup_profile 3 []).
Proof.
  apply (prompt_carries_every_value startup_profile 3 [] "achievements").
  - unfold form_keys, prompt_fields. simpl. do 17 apply list_elem_of_further.
    apply list_elem_of_here.
  - reflexivity.
Defined.

(** ** Guidance *)

Lemma aspiration_only (a : str) : aspiration (only_aspiration a) = a.
Proof. unfold aspiration, get, only_aspiration. by rewrite lookup_singleton_eq. Qed.

(** The guidance depends on the profile through its aspiration only. *)
Lemma aspiration_guidance_only (data : gmap str str) (s : str) :
  aspiration_guidance data s
  = aspiration_guidance (only_aspiration (aspiration data)) [] ++ s.
Proof.
  unfold aspiration_guidance. rewrite aspiration_only.
  rewrite <- !app_assoc. reflexivity.
Qed.

(** X8: the guidance depends on the profile through its aspiration only;
    each of the six options of the aspiration select box has a guidance
    text of its own, no two options share one, and any other aspiration
    gets the style alone. *)
Theorem every_option_has_guidance (data : gmap str str) (s : str) :
  aspiration_guidance data s
  = aspiration_guidance (only_aspiration (aspiration data)) [] ++ s
  ∧ (aspiration data ∈ aspiration_options →
   ∃ text, text ≠ [] ∧ aspiration_guidance data s = text ++ py " " ++ s)
  ∧ (aspiration data ∉ aspiration_options →
     aspiration_guidance data s = py " " ++ s)
  ∧ NoDup ((λ a, aspiration_guidance (only_aspiration a) []) <$> aspiration_options)
  ∧ NoDup aspiration_options.
Proof.
  split; [apply aspiration_guidance_only|]. split; [|split; [|split]].
  - intros Hin. unfold aspiration_guidance.
    unfold aspiration_options in Hin. rewrite !elem_of_cons, elem_of_nil in Hin.
    destruct Hin as [H|[H|[H|[H|[H|[H|[]]]]]]]; rewrite H;
      (eexists; split; [|reflexivity]; discriminate).
  - intros Hnot. unfold aspiration_guidance.
    unfold aspiration_options in Hnot. rewrite !not_elem_of_cons in Hnot.
    destruct Hnot as (H1 & H2 & H3 & H4 & H5 & H6 & _).
    by rewrite !bool_decide_eq_false_2 by done.
  - assert (H : bool_decide (NoDup ((λ a, aspiration_guidance (only_aspiration a) [])
                                      <$> aspiration_options)) = true)
      by (vm_compute; reflexivity).
    exact (bool_decide_eq_true_1 _ H).
  - assert (H : bool_decide (NoDup aspiration_options) = true)
      by (vm_compute; reflexivity).
    exact (bool_decide_eq_true_1 _ H).
Qed.

Lemma every_option_has_guidance_witness :
  ∃ text, text ≠ []
          ∧ aspiration_guidance startup_profile (py "Lead.") = text ++ py " " ++ py "Lead.".
Proof.
  apply (proj1 (proj2 (every_option_has_guidance startup_profile (py "Lead.")))).
  assert (E : aspiration startup_profile = py "New Start-up (Business)")
    by (vm_compute; reflexivity).
  rewrite E. unfold aspiration_options. do 3 apply list_elem_of_further.
  apply list_elem_of_here.
Defined.

(** ** The form dictionary *)

Ltac same_field H k :=
  let E := fresh "E" in
  pose proof (f_equal (λ m : gmap str str, m !! py k) H) as E;
  vm_compute in E; injection E as E.

(** X9: the dictionary of a submit has exactly the 22 keys of the form, and
    two submits build the same dictionary only when every widget holds the
    same value: the form counts as unchanged exactly then. *)
Theorem form_data_determines_widgets (v v' : Widgets.t) :
  dom (make_form_data v) = list_to_set (py <$> form_keys)
  ∧ size (make_form_data v) = 22%nat
  ∧ (make_form_data v = make_form_data v' ↔ v = v').
Proof.
  assert (Hdom : dom (make_form_data v) = list_to_set (py <$> form_keys)).
  { unfold make_form_data. rewrite dom_list_to_map_L.
    match goal with
    | |- list_to_set ?l = _ =>
        assert (E : l = drop 1 (py <$> form_keys) ++ take 1 (py <$> form_keys))
          by (vm_compute; reflexivity);
        rewrite E
    end.
    apply list_to_set_perm_L.
    rewrite Permutation_app_comm. by rewrite take_drop. }
  split; [exact Hdom|]. split.
  - rewrite <- size_dom, Hdom, size_list_to_set; [reflexivity|].
    assert (H : bool_decide (NoDup (py <$> form_keys)) = true)
      by (vm_compute; reflexivity).
    exact (bool_decide_eq_true_1 _ H).
  - split; [|by intros ->]. intros H. destruct v, v'.
    same_field H "university". same_field H "major_subject".
    same_field H "degree_status". same_field H "passout_session".
    same_field H "final_year_project". same_field H "organization".
    same_field H "designation". same_field H "experience_years".
    same_field H "experience_status". same_field H "industry".
    same_field H "work_detail". same_field H "technical_skills".
    same_field H "it_skills". same_field H "interests".
    same_field H "certifications". same_field H "medal_holder".
    same_field H "achievements". same_field H "honours".
    same_field H "ref_name". same_field H "ref_designation".
    same_field H "ref_organization". same_field H "aspiration".
    by subst.
Qed.

Lemma form_data_determines_widgets_witness :
  make_form_data (sample_widgets []) ≠ make_form_data (sample_widgets (py "Won X award")).
Proof.
  intros H.
  apply (proj2 (proj2 (form_data_determines_widgets _ _))) in H.
  discriminate H.
Defined.

(** ** One call of [generate_cv_sections] *)

Lemma surfaced_all_errors (f : failure) : Forall (λ ev, is_st_error ev = true) (surfaced f).
Proof. destruct f; repeat constructor. Qed.

Lemma generate_cv_sections_no_key (w : world) (data : gmap str str) (n : Z) :
  GROQ_API_KEY w = [] →
  generate_cv_sections w data n = (Ret None, [StError msg_key_missing]).
Proof.
  intros Hkey. destruct (variation_style_total n) as (s & _ & Hs).
  rewrite (generate_cv_sections_run w data n s Hs). unfold client_call.
  by rewrite generate_with_groq_no_key.
Qed.

Lemma generate_cv_sections_trace (w : world) (data : gmap str str) (n : Z) :
  GROQ_API_KEY w ≠ [] →
  ∃ req errors,
    (generate_cv_sections w data n).2 = Post req :: errors
    ∧ Forall (λ ev, is_st_error ev = true) errors
    ∧ (∀ sec, (generate_cv_sections w data n).1 = Ret (Some sec) → errors = []).
Proof.
  intros Hkey. destruct (variation_style_total n) as (s & _ & Hs).
  rewrite (generate_cv_sections_run w data n s Hs). unfold client_call.
  rewrite generate_with_groq_run by exact Hkey. cbv zeta.
  destruct (attempt _) as [f|t].
  - eexists _, _. split; [reflexivity|]. split; [apply surfaced_all_errors|].
    discriminate.
  - exists (groq_request w (prompt data n (aspiration_guidance data s))
              (system_prompt data n) (sample_temperature (random_random w))), [].
    split; [by destruct (truthy t)|]. split; [constructor | reflexivity].
Qed.

(** X10: one call of [generate_cv_sections] never raises; without a key it
    shows the key message and makes no request; with a key the request
    comes first, it is the only one, everything after it is an error shown
    to the user, and nothing is shown when a record is returned. *)
Theorem generate_cv_sections_effects (w : world) (data : gmap str str) (n : Z) :
  (∀ e, (generate_cv_sections w data n).1 ≠ Raise e)
  ∧ (GROQ_API_KEY w = [] →
     generate_cv_sections w data n = (Ret None, [StError msg_key_missing]))
  ∧ (GROQ_API_KEY w ≠ [] →
     ∃ req errors,
       (generate_cv_sections w data n).2 = Post req :: errors
       ∧ Forall (λ ev, is_st_error ev = true) errors
       ∧ (∀ sec, (generate_cv_sections w data n).1 = Ret (Some sec) → errors = [])).
Proof.
  split; [apply generate_cv_sections_no_raise|].
  split; [apply generate_cv_sections_no_key | apply generate_cv_sections_trace].
Qed.

Lemma generate_cv_sections_effects_witness :
  generate_cv_sections
    (World [] (fun _ => Raise (Exn ConnectionError [])) 0.5%float [])
    startup_profile 0
  = (Ret None, [StError msg_key_missing]).
Proof.
  exact (proj1 (proj2 (generate_cv_sections_effects
           (World [] (fun _ => Raise (Exn ConnectionError [])) 0.5%float [])
           startup_profile 0)) eq_refl).
Defined.

(** X11: an empty completion fails without a word: when the endpoint
    answers 200 with a content made of whitespace only, the submit handler
    sends its one request, shows no error, stores the form and leaves the
    displayed section and the counter of that form as they were. *)
Theorem blank_completion_fails_silently
    (w : world) (v : Widgets.t) (s : session) (content : str) :
  GROQ_API_KEY w ≠ [] →
  Widgets.achievements v ≠ [] →
  (∀ req, requests_post w req = Ret (Response 200 [] (Ret (completion content)))) →
  Forall (λ c, isspace c = true) content →
  ∃ req,
    on_submit w v s =
      (Session (generated_section s) (make_form_data v) (counter_at_submit v s),
       (Ret tt, [Post req])).
Proof.
  intros Hkey Hne Hpost Hblank.
  rewrite (on_submit_run w v s Hne). cbv zeta.
  destruct (variation_style_total (counter_at_submit v s)) as (st & _ & Hst).
  rewrite (generate_cv_sections_run w (make_form_data v) _ st Hst). unfold client_call.
  rewrite generate_with_groq_run by exact Hkey. cbv zeta.
  unfold attempt. rewrite Hpost. simpl status_code. simpl json_body.
  change (200 =? 200) with true. cbv iota.
  assert (E : bind_outcome (Ret (completion content)) first_choice_content
              = Ret (strip content)).
  { unfold bind_outcome, first_choice_content, completion, json_get.
    rewrite lookup_singleton_eq. simpl. rewrite lookup_singleton_eq. simpl.
    by rewrite lookup_singleton_eq. }
  rewrite E, (strip_of_all_space content Hblank). simpl. by eexists.
Qed.

Lemma blank_completion_fails_silently_witness :
  ∃ req,
    on_submit (answering_world (completion (py "  "))) (sample_widgets (py "Won X award"))
      initial_session
    = (Session None (make_form_data (sample_widgets (py "Won X award"))) 0,
       (Ret tt, [Post req])).
Proof.
  destruct (blank_completion_fails_silently (answering_world (completion (py "  ")))
              (sample_widgets (py "Won X award")) initial_session (py "  "))
    as [req Hreq]; [discriminate|discriminate|reflexivity|repeat constructor|].
  exists req. rewrite Hreq. reflexivity.
Defined.

(** ** Sessions the page can reach *)

Lemma generate_cv_sections_some (w : world) (data : gmap str str) (n : Z) (sec : section) :
  (generate_cv_sections w data n).1 = Ret (Some sec) →
  ∃ t, t ≠ [] ∧ sec = section_of w data n t.
Proof.
  destruct (variation_style_total n) as (s & _ & Hs).
  rewrite (generate_cv_sections_run w data n s Hs).
  destruct (client_call w data n s) as [[[t|]|e] tr]; simpl; try discriminate.
  destruct (truthy t) eqn:Ht; simpl; [|discriminate].
  intros [= <-]. exists t. split; [by apply truthy_true | reflexivity].
Qed.

Lemma make_form_data_nonempty (v : Widgets.t) : make_form_data v ≠ ∅.
Proof.
  intros H. pose proof (make_form_data_aspiration v) as Ha.
  rewrite H, lookup_empty in Ha. discriminate Ha.
Qed.

Lemma session_invariant_fresh_section (w : world) (data : gmap str str) (n : Z) (t : str) :
  0 ≤ n → t ≠ [] → data ≠ ∅ →
  (data = ∅ ∨ ∃ v, data = make_form_data v ∧ Widgets.achievements v ≠ []) →
  session_invariant (Session (Some (section_of w data n t)) data (n + 1)).
Proof.
  intros Hn Ht Hdata Hform. split; [simpl; lia|]. split; [exact Hform|].
  intros sec [= <-]. simpl. repeat split; auto. lia.
Qed.

(** X12: in every session the page can reach, the counter is not negative
    and the stored form is empty or a validated submit; a displayed
    section has a non-empty text and a version of at least 1, the stored
    form is then not empty, the counter is that version or 0, and when it
    is that version the section was generated from the stored form. *)
Theorem reachable_sessions_invariant (s : session) :
  reachable s → session_invariant s.
Proof.
  induction 1 as [|w v s Hreach IH Hkey|w s Hreach IH Hkey Hsec].
  - split; [simpl; lia|]. split; [by left|]. intros sec [=].
  - destruct (decide (Widgets.achievements v = [])) as [Hempty|Hfull].
    { unfold on_submit. rewrite Hempty. exact IH. }
    rewrite (on_submit_run w v s Hfull). cbv zeta.
    destruct IH as (Hcount & Hform & Hshown).
    assert (Hc : 0 ≤ counter_at_submit v s).
    { unfold counter_at_submit. case_bool_decide; lia. }
    assert (Hdata : make_form_data v = ∅
                    ∨ ∃ v', make_form_data v = make_form_data v'
                            ∧ Widgets.achievements v' ≠ []).
    { right. by exists v. }
    pose proof (generate_cv_sections_some w (make_form_data v) (counter_at_submit v s))
      as Hsome.
    destruct (generate_cv_sections w (make_form_data v) (counter_at_submit v s))
      as [[[sec|]|e] tr]; simpl.
    + destruct (Hsome sec eq_refl) as (t & Ht & ->).
      apply session_invariant_fresh_section; auto using make_form_data_nonempty.
    + split; [exact Hc|]. split; [exact Hdata|]. simpl.
      intros sec Hsec. destruct (Hshown sec Hsec) as (_ & Htext & Hver & Hrel & Hsame).
      split; [apply make_form_data_nonempty|]. split; [exact Htext|].
      split; [exact Hver|]. unfold counter_at_submit in *.
      case_bool_decide as Hform'; [|split; [by right | lia]].
      rewrite <- Hform'. split; [exact Hrel | exact Hsame].
    + split; [exact Hc|]. split; [exact Hdata|]. simpl.
      intros sec Hsec. destruct (Hshown sec Hsec) as (_ & Htext & Hver & Hrel & Hsame).
      split; [apply make_form_data_nonempty|]. split; [exact Htext|].
      split; [exact Hver|]. unfold counter_at_submit in *.
      case_bool_decide as Hform'; [|split; [by right | lia]].
      rewrite <- Hform'. split; [exact Hrel | exact Hsame].
  - destruct IH as (Hcount & Hform & Hshown).
    destruct (generated_section s) as [old|] eqn:Hold; [|done].
    destruct (Hshown old eq_refl) as (Hdata & _).
    unfold on_regenerate. rewrite (bool_decide_eq_true_2 _ Hdata).
    pose proof (generate_cv_sections_some w (form_data s) (variation_count s)) as Hsome.
    destruct (generate_cv_sections w (form_data s) (variation_count s))
      as [[[sec|]|e] tr]; simpl.
    + destruct (Hsome sec eq_refl) as (t & Ht & ->).
      by apply session_invariant_fresh_section.
    + split; [exact Hcount|]. split; [exact Hform|]. by rewrite Hold.
    + split; [exact Hcount|]. split; [exact Hform|]. by rewrite Hold.
Qed.

Lemma reachable_sessions_invariant_witness :
  session_invariant
    (on_submit (answering_world (completion entrepreneur_text))
       (sample_widgets (py "Won X award")) initial_session).1.
Proof.
  apply reachable_sessions_invariant, reach_submit; [apply reach_initial | discriminate].
Defined.

Lemma generate_cv_sections_never_warns (w : world) (data : gmap str str) (n : Z)
    (msg : str) :
  StWarning msg ∉ (generate_cv_sections w data n).2.
Proof.
  destruct (decide (GROQ_API_KEY w = [])) as [Hkey|Hkey].
  - rewrite (generate_cv_sections_no_key w data n Hkey). simpl.
    rewrite elem_of_cons, elem_of_nil. by intros [?|?].
  - destruct (generate_cv_sections_trace w data n Hkey) as (req & errors & -> & Herr & _).
    rewrite elem_of_cons. intros [?|Hin]; [done|].
    rewrite Forall_forall in Herr. by apply Herr in Hin.
Qed.

(** A displayed section always comes with a stored form. *)
Lemma reachable_section_has_form (s : session) :
  reachable s → generated_section s ≠ None → form_data s ≠ ∅.
Proof.
  induction 1 as [|w v s Hreach IH Hkey|w s Hreach IH Hkey Hsec].
  - done.
  - destruct (decide (Widgets.achievements v = [])) as [Hempty|Hfull].
    { unfold on_submit. rewrite Hempty. exact IH. }
    rewrite (on_submit_run w v s Hfull). cbv zeta.
    destruct (generate_cv_sections w (make_form_data v) (counter_at_submit v s))
      as [[[sec|]|e] tr]; simpl; intros _; apply make_form_data_nonempty.
  - specialize (IH Hsec). unfold on_regenerate. rewrite (bool_decide_eq_true_2 _ IH).
    destruct (generate_cv_sections w (form_data s) (variation_count s))
      as [[[sec|]|e] tr]; simpl; intros _; exact IH.
Qed.

(** X13: the Regenerate button never finds an empty form: wherever the
    page draws it, a click generates from the stored form and the warning
    "Please fill and submit the form first" is not shown. *)
Theorem regenerate_never_warns (w : world) (s : session) :
  reachable s →
  generated_section s ≠ None →
  form_data s ≠ ∅
  ∧ (∀ msg, StWarning msg ∉ (on_regenerate w s).2.2)
  ∧ on_regenerate w s =
      match generate_cv_sections w (form_data s) (variation_count s) with
      | (Ret (Some sec), t) =>
          (Session (Some sec) (form_data s) (variation_count s + 1),
           (Ret tt, t ++ [Rerun]))
      | (Ret None, t) => (s, (Ret tt, t))
      | (Raise e, t) => (s, (Raise e, t))
      end.
Proof.
  intros Hreach Hsec.
  pose proof (reachable_section_has_form s Hreach Hsec) as Hdata.
  split; [exact Hdata|].
  assert (Hrun : on_regenerate w s =
      match generate_cv_sections w (form_data s) (variation_count s) with
      | (Ret (Some sec), t) =>
          (Session (Some sec) (form_data s) (variation_count s + 1),
           (Ret tt, t ++ [Rerun]))
      | (Ret None, t) => (s, (Ret tt, t))
      | (Raise e, t) => (s, (Raise e, t))
      end).
  { unfold on_regenerate. by rewrite (bool_decide_eq_true_2 _ Hdata). }
  split; [|exact Hrun]. intros msg. rewrite Hrun.
  pose proof (generate_cv_sections_never_warns w (form_data s) (variation_count s) msg)
    as Htrace.
  destruct (generate_cv_sections w (form_data s) (variation_count s))
    as [[[sec|]|e] tr]; simpl in *; try exact Htrace.
  rewrite elem_of_app, elem_of_cons, elem_of_nil. by intros [?|[?|?]].
Qed.

Lemma regenerate_never_warns_witness :
  form_data (on_submit (answering_world (completion entrepreneur_text))
               (sample_widgets (py "Won X award")) initial_session).1 ≠ ∅.
Proof.
  refine (proj1 (regenerate_never_warns (answering_world (completion entrepreneur_text))
                   _ _ _)).
  - apply reach_submit; [apply reach_initial | discriminate].
  - vm_compute. discriminate.
Defined.

(** X14: a generation that fails after the form changed keeps the section
    of the previous form on display: the new form is stored, the counter
    is 0, and the section shown is still the old one. *)
Theorem failed_submit_keeps_old_section
    (w : world) (v : Widgets.t) (s : session) (old : section) :
  generated_section s = Some old →
  Widgets.achievements v ≠ [] →
  make_form_data v ≠ form_data s →
  (generate_cv_sections w (make_form_data v) 0).1 = Ret None →
  (on_submit w v s).1 = Session (Some old) (make_form_data v) 0
  ∧ Rerun ∉ (on_submit w v s).2.2.
Proof.
  intros Hold Hfull Hchanged Hfail.
  rewrite (on_submit_run w v s Hfull). cbv zeta.
  unfold counter_at_submit. rewrite bool_decide_eq_false_2 by done.
  assert (Hrerun : Rerun ∉ (generate_cv_sections w (make_form_data v) 0).2).
  { destruct (decide (GROQ_API_KEY w = [])) as [Hkey|Hkey].
    - rewrite (generate_cv_sections_no_key w _ _ Hkey). simpl.
      rewrite elem_of_cons, elem_of_nil. by intros [?|?].
    - destruct (generate_cv_sections_trace w (make_form_data v) 0 Hkey)
        as (req & errors & -> & Herr & _).
      rewrite elem_of_cons. intros [?|Hin]; [done|].
      rewrite Forall_forall in Herr. by apply Herr in Hin. }
  destruct (generate_cv_sections w (make_form_data v) 0) as [[[sec|]|e] tr];
    simpl in *; try discriminate Hfail.
  by rewrite Hold.
Qed.

Lemma failed_submit_keeps_old_section_witness :
  ∃ old,
    (on_submit unreachable_world (sample_widgets (py "Led a team of 5"))
       (on_submit (answering_world (completion entrepreneur_text))
          (sample_widgets (py "Won X award")) initial_session).1).1
    = Session (Some old) (make_form_data (sample_widgets (py "Led a team of 5"))) 0.
Proof.
  set (s1 := (on_submit (answering_world (completion entrepreneur_text))
                (sample_widgets (py "Won X award")) initial_session).1).
  destruct (generated_section s1) as [old|] eqn:Hold;
    [|vm_compute in Hold; discriminate Hold].
  exists old.
  apply (proj1 (failed_submit_keeps_old_section unreachable_world
                  (sample_widgets (py "Led a team of 5")) s1 old Hold
                  ltac:(discriminate)
                  ltac:(intros H; same_field H "achievements"; discriminate E)
                  ltac:(vm_compute; reflexivity))).
Defined.

(** ** The top of the page *)

(** X18: a run of the page stops at the top exactly when the key is
    missing, and then without any request; with a key it always goes on to
    the form after exactly one request, the probe, and it shows an error
    and a warning exactly when the probe did not get a 200: a failed probe
    never blocks the form. *)
Theorem page_start_never_blocks_on_probe (w : world) :
  (GROQ_API_KEY w = [] → page_start w = (Ret false, [StError msg_key_not_found]))
  ∧ (GROQ_API_KEY w ≠ [] →
     ∃ shown,
       page_start w = (Ret true, Post (probe_request w) :: shown)
       ∧ (shown = [] ↔
          ∃ resp, requests_post w (probe_request w) = Ret resp ∧ status_code resp = 200)
       ∧ (shown ≠ [] →
          ∃ status, shown = [StError (0x274C%N :: py " Groq API Error: " ++ status);
                             StWarning msg_check_configuration])).
Proof.
  split.
  - intros Hkey. unfold page_start. rewrite Hkey. reflexivity.
  - intros Hkey. unfold page_start.
    rewrite (proj2 (truthy_true _) Hkey). simpl negb. cbv iota.
    rewrite (check_groq_connection_run w Hkey). unfold bind at 1.
    destruct (requests_post w (probe_request w)) as [resp|e].
    + destruct (Z.eqb_spec (status_code resp) 200) as [E|NE]; simpl.
      * exists []. split; [reflexivity|]. split; [|done].
        split; [|done]. intros _. by exists resp.
      * eexists. split; [reflexivity|]. split; [|by eexists].
        split; [discriminate|]. intros (resp' & [= <-] & E). contradiction.
    + assert (Hno : ¬ ∃ resp, @Raise response e = Ret resp ∧ status_code resp = 200)
        by (intros (resp & [=] & _)).
      destruct (isinstance_Timeout e); [|destruct (isinstance_ConnectionError e)];
        simpl; (eexists; split; [reflexivity|]; split; [|by eexists];
                split; [discriminate | intros H; by destruct Hno]).
Qed.

Lemma page_start_never_blocks_on_probe_witness :
  ∃ shown,
    page_start unreachable_world = (Ret true, Post (probe_request unreachable_world) :: shown)
    ∧ shown ≠ [].
Proof.
  destruct (proj2 (page_start_never_blocks_on_probe unreachable_world)
              ltac:(discriminate)) as (shown & Hrun & Hiff & _).
  exists shown. split; [exact Hrun|].
  intros Hshown. apply Hiff in Hshown as (resp & Hresp & _). discriminate Hresp.
Defined.

(** ** The form as the page draws it *)

Lemma list_index_None (seq : list str) (x : str) :
  list_index seq x = None ↔ x ∉ seq.
Proof.
  induction seq as [|y seq IH]; simpl.
  - split; [intros _; apply not_elem_of_nil | done].
  - rewrite not_elem_of_cons. case_bool_decide as Hy.
    + split; [discriminate | intros [Hne _]; by destruct Hne].
    + rewrite fmap_None, IH. split; [by split | by intros [_ ?]].
Qed.

(** [seq.index(x)] is the first position of [x]. *)
Lemma list_index_Some (seq : list str) (x : str) (i : nat) :
  list_index seq x = Some i →
  seq !! i = Some x ∧ ∀ j, (j < i)%nat → seq !! j ≠ Some x.
Proof.
  revert i. induction seq as [|y seq IH]; intros i; simpl; [discriminate|].
  case_bool_decide as Hy.
  - intros [= <-]. split; [by rewrite Hy | intros j Hj; lia].
  - rewrite fmap_Some. intros (i' & Hi' & ->).
    destruct (IH i' Hi') as [Hlook Hfirst]. split; [exact Hlook|].
    intros [|j] Hj; simpl; [by intros [= ?] | apply Hfirst; lia].
Qed.

(** X17: the page draws its form without a [ValueError] exactly when the
    degree status and the experience status of the autofill data, or their
    defaults "Completed" and "None", are options of their select boxes; the
    select boxes then show exactly these values, the aspiration shows its
    first option and the achievements field the autofilled achievements. *)
Theorem form_is_drawn_iff_statuses_are_options (autofill : gmap str str) :
  let degree := get autofill "degree_status" (py "Completed") in
  let experience := get autofill "experience_status" (py "None") in
  (untouched_widgets autofill = None ↔
   degree ∉ degree_status_options ∨ experience ∉ experience_status_options)
  ∧ ∀ v, untouched_widgets autofill = Some v →
      Widgets.degree_status v = degree
      ∧ Widgets.experience_status v = experience
      ∧ Widgets.aspiration v = py "Interested in Job"
      ∧ Widgets.achievements v = get autofill "achievements" [].
Proof.
  intros degree experience. unfold untouched_widgets.
  fold degree experience.
  destruct (list_index degree_status_options degree) as [i|] eqn:Hi;
    destruct (list_index experience_status_options experience) as [j|] eqn:Hj.
  - destruct (list_index_Some _ _ _ Hi) as [Hdegree _].
    destruct (list_index_Some _ _ _ Hj) as [Hexperience _].
    assert (Hd : degree ∈ degree_status_options) by (by eapply list_elem_of_lookup_2).
    assert (He : experience ∈ experience_status_options)
      by (by eapply list_elem_of_lookup_2).
    cbn [mbind option_bind]. rewrite Hdegree. cbn [mbind option_bind].
    rewrite Hexperience. cbn [mbind option_bind]. simpl lookup.
    split; [|by intros v [= <-]].
    split; [discriminate|]. by intros [?|?].
  - apply list_index_None in Hj. destruct (list_index_Some _ _ _ Hi) as [Hdegree _].
    cbn [mbind option_bind]. rewrite Hdegree. cbn [mbind option_bind].
    split; [|by intros v [=]]. split; [|done]. intros _. by right.
  - apply list_index_None in Hi. cbn [mbind option_bind].
    split; [|by intros v [=]]. split; [|done]. intros _. by left.
  - apply list_index_None in Hi. cbn [mbind option_bind].
    split; [|by intros v [=]]. split; [|done]. intros _. by left.
Qed.

Lemma form_is_drawn_iff_statuses_are_options_witness :
  ∃ v, untouched_widgets ∅ = Some v
       ∧ Widgets.degree_status v = py "Completed"
       ∧ Widgets.experience_status v = py "None"
       ∧ Widgets.achievements v = [].
Proof.
  destruct (untouched_widgets ∅) as [v|] eqn:Hv; [|vm_compute in Hv; discriminate Hv].
  exists v.
  destruct (proj2 (form_is_drawn_iff_statuses_are_options ∅) v Hv) as (H1 & H2 & _ & H4).
  rewrite H1, H2, H4. repeat split; reflexivity.
Defined.

(** ** More edges of the client and of the handlers *)

(** X19: a content that is not a string (a null content, say) is an
    error, not a text: the client shows "Error generating content" with
    the attribute error of [strip] and returns [None]. *)
Theorem non_string_content_is_an_error
    (w : world) (prompt system_prompt : str) (temp : float)
    (resp : response) (d c m : gmap str json) (rest : list json) (x : json) :
  GROQ_API_KEY w ≠ [] →
  requests_post w (groq_request w prompt system_prompt temp) = Ret resp →
  status_code resp = 200 →
  json_body resp = Ret (JDict d) →
  d !! py "choices" = Some (JList (JDict c :: rest)) →
  c !! py "message" = Some (JDict m) →
  m !! py "content" = Some x →
  (∀ s, x ≠ JStr s) →
  generate_with_groq w prompt system_prompt temp =
    (Ret None,
     [Post (groq_request w prompt system_prompt temp);
      StError (0x274C%N :: py " Error generating content: '" ++ type_name x
               ++ py "' object has no attribute 'strip'")]).
Proof.
  intros Hkey Hpost Hstatus Hbody Hc Hm Hx Hnot.
  rewrite (run_extraction w prompt system_prompt temp resp d Hkey Hpost Hstatus Hbody).
  unfold first_choice_content, json_get. rewrite Hc. simpl.
  rewrite Hm. simpl. rewrite Hx. simpl.
  destruct x; try reflexivity. by destruct (Hnot s).
Qed.

Lemma non_string_content_is_an_error_witness :
  generate_with_groq (answering_world (completion_with JNone)) (py "p") (py "s") 0.9%float
  = (Ret None,
     [Post (groq_request (answering_world (completion_with JNone)) (py "p") (py "s")
              0.9%float);
      StError (0x274C%N :: py " Error generating content: 'NoneType' object has no attribute 'strip'")]).
Proof.
  refine (non_string_content_is_an_error (answering_world (completion_with JNone))
            (py "p") (py "s") 0.9%float (Response 200 [] (Ret (completion_with JNone)))
            _ _ _ [] JNone _ _ _ _ _ _ _ _);
    first [discriminate | reflexivity | by intros s].
Defined.

Lemma on_regenerate_step (w : world) (s : session) :
  form_data (on_regenerate w s).1 = form_data s
  ∧ variation_count s ≤ variation_count (on_regenerate w s).1 ≤ variation_count s + 1.
Proof.
  unfold on_regenerate. case_bool_decide; [|simpl; split; [reflexivity | lia]].
  destruct (generate_cv_sections w (form_data s) (variation_count s))
    as [[[sec|]|e] tr]; simpl; (split; [reflexivity | lia]).
Qed.

(** X20: clicks on Regenerate never change the stored form, never lower
    the counter, and raise it by at most one each. *)
Theorem regenerations_count_at_most_once_each (ws : list world) (s : session) :
  form_data (regenerations ws s) = form_data s
  ∧ variation_count s ≤ variation_count (regenerations ws s)
    ≤ variation_count s + Z.of_nat (length ws).
Proof.
  revert s. induction ws as [|w ws IH]; intros s; [simpl; split; [reflexivity | lia]|].
  unfold regenerations. simpl foldl. fold (regenerations ws (on_regenerate w s).1).
  destruct (IH (on_regenerate w s).1) as (Hform & Hlo & Hhi).
  destruct (on_regenerate_step w s) as (Hform' & Hlo' & Hhi').
  rewrite Hform, Hform'. split; [reflexivity|]. simpl length. lia.
Qed.

(** ** Sample data *)

Section RandomFacts.
Variable rng : Type.
Variable randbelow : nat → rng → nat * rng.

(** The contract of [_randbelow]. *)
Hypothesis randbelow_lt : ∀ n g, (0 < n)%nat → ((randbelow n g).1 < n)%nat.

Lemma random_choice_in (seq : list str) (g : rng) :
  seq ≠ [] →
  ∃ x, x ∈ seq
       ∧ random_choice rng randbelow seq g = (Ret x, (randbelow (length seq) g).2).
Proof.
  intros Hseq. unfold random_choice.
  pose proof (randbelow_lt (length seq) g) as Hlt.
  destruct seq as [|y seq']; [done|].
  destruct (randbelow (length (y :: seq')) g) as [i g'] eqn:E. simpl in Hlt.
  destruct (lookup_lt_is_Some_2 (y :: seq') i) as [x Hx]; [simpl; lia|].
  rewrite Hx. exists x. split; [by eapply list_elem_of_lookup_2 | reflexivity].
Qed.

Lemma random_randint_in (a b : Z) (g : rng) :
  a ≤ b →
  ∃ y, a ≤ y ≤ b
       ∧ random_randint rng randbelow a b g
         = (Ret y, (randbelow (Z.to_nat (b + 1 - a)) g).2).
Proof.
  intros Hab. unfold random_randint.
  replace (0 <? b + 1 - a) with true by (symmetry; apply Z.ltb_lt; lia).
  pose proof (randbelow_lt (Z.to_nat (b + 1 - a)) g) as Hlt.
  destruct (randbelow (Z.to_nat (b + 1 - a)) g) as [i g'] eqn:E. simpl in Hlt.
  exists (a + Z.of_nat i). split; [lia | reflexivity].
Qed.

Ltac draw :=
  lazymatch goal with
  | |- context [random_choice rng randbelow ?l ?g] =>
      let x := fresh "x" in let Hx := fresh "Hx" in let E := fresh "E" in
      destruct (random_choice_in l g ltac:(discriminate)) as (x & Hx & E);
      rewrite E; clear E; cbv beta iota
  | |- context [random_randint rng randbelow ?a ?b ?g] =>
      let x := fresh "x" in let Hx := fresh "Hx" in let E := fresh "E" in
      destruct (random_randint_in a b g ltac:(lia)) as (x & Hx & E);
      rewrite E; clear E; cbv beta iota
  end.

(** The sample is built from 25 draws, each from its list or range. *)
Lemma get_random_sample_data_run (g : rng) :
  ∃ x1 x2 x3 x4 x5 x6 x7 x8 x9 x10 x11 x12 x13 x14 x15 x16 x17 x18 x19 x20 x21 x22 x23 x24 x25 g',
    sample_draws x1 x2 x3 x4 x5 x6 x7 x8 x9 x10 x11 x12 x13 x14 x15 x16 x17 x18 x19 x20 x21 x22 x23 x24 x25
    ∧ get_random_sample_data rng randbelow g = (Ret (sample_dict x1 x2 x3 x4 x5 x6 x7 x8 x9 x10 x11 x12 x13 x14 x15 x16 x17 x18 x19 x20 x21 x22 x23 x24 x25), g').
Proof.
  unfold get_random_sample_data, rbind, rret.
  do 25 draw.
  do 26 eexists. split; [|reflexivity].
  unfold sample_draws. repeat split; first [assumption | lia].
Qed.

Lemma sample_achievements_nonempty (a : str) : a ∈ sample_achievements → a ≠ [].
Proof.
  unfold sample_achievements. rewrite !elem_of_cons, elem_of_nil.
  intros [->|[->|[->|[->|[->|[]]]]]]; discriminate.
Qed.

(** X15: [get_random_sample_data] never raises; the dictionary it returns
    has the 21 keys of the form other than the aspiration, its achievements
    are one of the five samples and not empty, its two statuses are options
    of their select boxes, the pass-out year is between 2020 and 2024 and
    the experience between 1 and 5 years. *)
Theorem sample_data_is_valid (g : rng) :
  ∃ d g',
    get_random_sample_data rng randbelow g = (Ret d, g')
    ∧ dom d = list_to_set (py <$> sample_keys)
    ∧ d !! py "aspiration" = None
    ∧ (∃ a, d !! py "achievements" = Some a ∧ a ∈ sample_achievements ∧ a ≠ [])
    ∧ (∃ x, d !! py "degree_status" = Some x ∧ x ∈ degree_status_options)
    ∧ (∃ x, d !! py "experience_status" = Some x ∧ x ∈ experience_status_options)
    ∧ (∃ y, d !! py "passout_session" = Some (str_of_int y) ∧ 2020 ≤ y ≤ 2024)
    ∧ (∃ k, d !! py "experience_years" = Some (str_of_int k ++ py " years")
            ∧ 1 ≤ k ≤ 5).
Proof.
  destruct (get_random_sample_data_run g)
    as (x1 & x2 & x3 & x4 & x5 & x6 & x7 & x8 & x9 & x10 & x11 & x12 & x13 & x14 & x15 & x16 & x17 & x18 & x19 & x20 & x21 & x22 & x23 & x24 & x25 & g' & Hdraws & Hrun).
  unfold sample_draws in Hdraws.
  destruct Hdraws as (_ & _ & H3 & H4 & _ & _ & _ & H8 & H9 & _ & _ & _ & _ & _ & _ & _
                      & _ & _ & _ & H20 & _).
  eexists _, g'. split; [exact Hrun|].
  split; [|split; [|split; [|split; [|split; [|split]]]]].
  - unfold sample_dict. rewrite dom_list_to_map_L.
    match goal with
    | |- list_to_set ?l = _ =>
        assert (E : l = py <$> sample_keys) by (vm_compute; reflexivity); by rewrite E
    end.
  - vm_compute. reflexivity.
  - exists x20. split; [vm_compute; reflexivity|].
    split; [exact H20 | by apply sample_achievements_nonempty].
  - exists x3. split; [vm_compute; reflexivity|].
    unfold degree_status_options. rewrite !elem_of_cons in *. tauto.
  - exists x9. split; [vm_compute; reflexivity|].
    unfold experience_status_options. rewrite !elem_of_cons in *. tauto.
  - exists x4. split; [reflexivity | exact H4].
  - exists x8. split; [reflexivity | exact H8].
Qed.

Lemma make_form_data_insert (v : Widgets.t) :
  make_form_data v =
    <[py "aspiration" := Widgets.aspiration v]>
      (list_to_map [
        (py "university", Widgets.university v);
        (py "major_subject", Widgets.major_subject v);
        (py "degree_status", Widgets.degree_status v);
        (py "passout_session", Widgets.passout_session v);
        (py "final_year_project", Widgets.final_year_project v);
        (py "organization", Widgets.organization v);
        (py "designation", Widgets.designation v);
        (py "experience_years", Widgets.experience_years v);
        (py "experience_status", Widgets.experience_status v);
        (py "industry", Widgets.industry v);
        (py "work_detail", Widgets.work_detail v);
        (py "technical_skills", Widgets.technical_skills v);
        (py "it_skills", Widgets.it_skills v);
        (py "interests", Widgets.interests v);
        (py "certifications", Widgets.certifications v);
        (py "medal_holder", Widgets.medal_holder v);
        (py "achievements", Widgets.achievements v);
        (py "honours", Widgets.honours v);
        (py "ref_name", Widgets.ref_name v);
        (py "ref_designation", Widgets.ref_designation v);
        (py "ref_organization", Widgets.ref_organization v)
      ]).
Proof.
  unfold make_form_data.
  match goal with
  | |- list_to_map ?l = <[?k:=?a]> (list_to_map ?l') =>
      change (@list_to_map str str (gmap str str) _ _ l
              = @list_to_map str str (gmap str str) _ _ ((k, a) :: l'));
      apply list_to_map_proper;
      [| change l with (l' ++ [(k, a)]); symmetry; apply Permutation_cons_append]
  end.
  match goal with
  | |- NoDup ?ks =>
      assert (E : ks = drop 1 (py <$> form_keys) ++ take 1 (py <$> form_keys))
        by (vm_compute; reflexivity);
      rewrite E
  end.
  assert (H : bool_decide (NoDup (drop 1 (py <$> form_keys)
                                  ++ take 1 (py <$> form_keys))) = true)
    by (vm_compute; reflexivity).
  exact (bool_decide_eq_true_1 _ H).
Qed.

Lemma untouched_widgets_sample (x1 : str) (x2 : str) (x3 : str) (x4 : Z) (x5 : str) (x6 : str) (x7 : str) (x8 : Z) (x9 : str) (x10 : str) (x11 : str) (x12 : str) (x13 : str) (x14 : str) (x15 : str) (x16 : str) (x17 : str) (x18 : str) (x19 : str) (x20 : str) (x21 : str) (x22 : str) (x23 : str) (x24 : str) (x25 : str) :
  x3 ∈ [py "Completed"; py "In Progress"] →
  x9 ∈ [py "Current"; py "Previous"] →
  untouched_widgets (sample_dict x1 x2 x3 x4 x5 x6 x7 x8 x9 x10 x11 x12 x13 x14 x15 x16 x17 x18 x19 x20 x21 x22 x23 x24 x25) = Some (sample_form x1 x2 x3 x4 x5 x6 x7 x8 x9 x10 x11 x12 x13 x14 x15 x16 x17 x18 x19 x20 x21 x22 x23 x24 x25).
Proof.
  rewrite !elem_of_cons, !elem_of_nil.
  intros [->|[->|[]]] [->|[->|[]]]; vm_compute; reflexivity.
Qed.

(** X16: after the Autofill button the page draws a form that can be
    submitted as it is: no select box fails on its value, every widget
    holds the value of the sample, the aspiration is the first option, and
    the achievements pass the validation of the submit handler. *)
Theorem autofilled_form_is_submittable (g : rng) :
  ∃ d g' v,
    on_autofill rng randbelow g = (Ret (d, [Rerun]), g')
    ∧ untouched_widgets d = Some v
    ∧ Widgets.achievements v ≠ []
    ∧ make_form_data v = <[py "aspiration" := py "Interested in Job"]> d.
Proof.
  destruct (get_random_sample_data_run g)
    as (x1 & x2 & x3 & x4 & x5 & x6 & x7 & x8 & x9 & x10 & x11 & x12 & x13 & x14 & x15 & x16 & x17 & x18 & x19 & x20 & x21 & x22 & x23 & x24 & x25 & g' & Hdraws & Hrun).
  unfold sample_draws in Hdraws.
  destruct Hdraws as (_ & _ & H3 & _ & _ & _ & _ & _ & H9 & _ & _ & _ & _ & _ & _ & _
                      & _ & _ & _ & H20 & _).
  apply sample_achievements_nonempty in H20.
  unfold on_autofill, rbind, rret. rewrite Hrun.
  eexists _, g', _. split; [reflexivity|].
  split; [by apply untouched_widgets_sample|].
  split; [exact H20|]. rewrite make_form_data_insert. reflexivity.
Qed.

End RandomFacts.

Lemma counter_randbelow_lt (n g : nat) :
  (0 < n)%nat → ((counter_randbelow n g).1 < n)%nat.
Proof. intros Hn. simpl. apply Nat.mod_upper_bound. lia. Qed.

Lemma sample_data_is_valid_witness :
  ∃ d g', get_random_sample_data nat counter_randbelow 7%nat = (Ret d, g')
          ∧ d !! py "aspiration" = None.
Proof.
  destruct (sample_data_is_valid nat counter_randbelow counter_randbelow_lt 7%nat)
    as (d & g' & Hrun & _ & Hasp & _).
  by exists d, g'.
Defined.

Lemma autofilled_form_is_submittable_witness :
  ∃ d g' v,
    on_autofill nat counter_randbelow 7%nat = (Ret (d, [Rerun]), g')
    ∧ untouched_widgets d = Some v
    ∧ Widgets.achievements v ≠ [].
Proof.
  destruct (autofilled_form_is_submittable nat counter_randbelow counter_randbelow_lt
              7%nat) as (d & g' & v & Hrun & Hv & Hach & _).
  by exists d, g', v.
Defined.
